(** * Mesh+ Workshop: the geometry pipeline of [meshplus_plugin.js]

    A shallow embedding of the two drafts of the plugin
    ([src/ransowere.js], version 2.0.0, and [src/unnamed/part_000],
    version 1.0.0) and the properties of its box -> solid -> voxel pipeline.

    Number model.  JavaScript numbers are IEEE-754 doubles; here they are
    exact rationals ([Q], compared with [==]).  Every concrete input used
    below is a small dyadic rational, on which double arithmetic is exact,
    and [EPSILON] is only ever compared with such values.  NaN and the
    infinities have no counterpart in this model.  The loops of
    [csgToCubes] add the step exactly here, where doubles round every
    addition: with a step such as 0.1 the last cell of an axis can fall on
    the other side of the bound. *)

From Stdlib Require Import QArith Qabs Qround ZArith List String Bool Arith Lia Lqa Sorted Permutation.
Import ListNotations.

Local Open Scope Q_scope.

(** ** Numbers *)

(** [a < b] on JavaScript numbers, as a boolean. *)
Definition Qltb (a b : Q) : bool := negb (Qle_bool b a).

(** [r !== 0] *)
Definition Qneqb (a b : Q) : bool := negb (Qeq_bool a b).

(** [const EPSILON = 1e-5] (ransowere.js line 6, part_000 line 51). *)
Definition EPSILON : Q := 1 # 100000.

(** ** The part of the CSG.js data model that the plugin reads *)

Module CSG.

(** [CSG.Vector]: the fields [x], [y], [z]. *)
Record Vector : Type := mkVector { x : Q; y : Q; z : Q }.

Definition dot (a b : Vector) : Q := x a * x b + y a * y b + z a * z b.
Definition plus (a b : Vector) : Vector :=
  mkVector (x a + x b) (y a + y b) (z a + z b).
Definition times (a : Vector) (k : Q) : Vector :=
  mkVector (x a * k) (y a * k) (z a * k).

(** [polygon.plane]: [normal] and the signed offset [w]. *)
Record Plane : Type := mkPlane { normal : Vector; w : Q }.

(** [CSG.Polygon]: its vertices and its plane. *)
Record Polygon : Type := mkPolygon { vertices : list Vector; plane : Plane }.

(** What [getBounds()] returns: [{min: {x, y, z}, max: {x, y, z}}]. *)
Record Bounds : Type := mkBounds { min : Vector; max : Vector }.

(** A solid as the plugin sees it: [toPolygons()], and [getBounds], a
    method that the loaded library may or may not provide
    ([csg_solid.getBounds ? ... : ...]). *)
Record Solid : Type := mkSolid {
  toPolygons : list Polygon;
  getBounds : option Bounds
}.

End CSG.

(** Pointwise equality of vectors as numbers. *)
Definition vec_eq (a b : CSG.Vector) : Prop :=
  CSG.x a == CSG.x b /\ CSG.y a == CSG.y b /\ CSG.z a == CSG.z b.

(** ** Blockbench cubes *)

(** A Blockbench [Cube]: [from], [to], the rotation pivot [origin] and the
    [rotation] in degrees (arrays of three numbers), and its [name]. *)
Record Cube : Type := mkCube {
  name : string;
  from : CSG.Vector;
  to : CSG.Vector;
  origin : CSG.Vector;
  rotation : CSG.Vector
}.

(** [new Cube({name: 'CSG Voxel', from: [x, y, z],
              to: [x + step, y + step, z + step], faces: {}})];
    pivot and rotation take Blockbench's defaults. *)
Definition newVoxel (x y z step : Q) : Cube :=
  mkCube "CSG Voxel"
         (CSG.mkVector x y z)
         (CSG.mkVector (x + step) (y + step) (z + step))
         (CSG.mkVector 0 0 0) (CSG.mkVector 0 0 0).

(** ** Outcomes of a call *)

(** Error kinds: the one exception the source throws, the run-time type
    error of dereferencing [undefined], and the kinds that the
    specification names. *)
Inductive Error : Type :=
| ThreeMissing          (* throw new Error('A biblioteca Three.js ...') *)
| TypeError             (* property access on undefined *)
| DegenerateGeometry
| InvalidResolution
| UnboundedVoxelization
| MalformedSolid.

(** A call returns, throws, or is still running when the fuel is spent. *)
Inductive Outcome (A : Type) : Type :=
| Returned (a : A)
| Thrown (e : Error)
| OutOfFuel.
Arguments Returned {A} a.
Arguments Thrown {A} e.
Arguments OutOfFuel {A}.

(** ** 2. Voxelisation: [csgToCubes] *)

(** [const ray_direction = new CSG.Vector(1, 0, 0)] *)
Definition ray_direction : CSG.Vector := CSG.mkVector 1 0 0.

(** The body of [csg_polygons.forEach(polygon => ...)]: [true] when the
    callback reaches [intersections++]. *)
Definition countsIntersection (center_point : CSG.Vector) (polygon : CSG.Polygon) : bool :=
  let plane := CSG.plane polygon in
  let denom := CSG.dot (CSG.normal plane) ray_direction in
  if Qltb (Qabs denom) EPSILON then false
  else
    let t := (CSG.w plane - CSG.dot (CSG.normal plane) center_point) / denom in
    if Qltb EPSILON t then true else false.

(** The point computed (and never used) inside the callback:
    [center_point.plus(ray_direction.times(t))]. *)
Definition intersectionPoint (center_point : CSG.Vector) (polygon : CSG.Polygon) : CSG.Vector :=
  let plane := CSG.plane polygon in
  let denom := CSG.dot (CSG.normal plane) ray_direction in
  let t := (CSG.w plane - CSG.dot (CSG.normal plane) center_point) / denom in
  CSG.plus center_point (CSG.times ray_direction t).

(** [let intersections = 0; csg_polygons.forEach(...)] *)
Definition intersections (csg_polygons : list CSG.Polygon) (center_point : CSG.Vector) : nat :=
  fold_left (fun n polygon => if countsIntersection center_point polygon then S n else n)
            csg_polygons 0%nat.

(** [intersections % 2 !== 0] for the cell whose low corner is [(x, y, z)]. *)
Definition insideCell (csg_polygons : list CSG.Polygon) (step x y z : Q) : bool :=
  let center_point := CSG.mkVector (x + step / 2) (y + step / 2) (z + step / 2) in
  negb (Nat.eqb (intersections csg_polygons center_point mod 2) 0).

(** The body of the innermost loop: push a voxel when the cell is inside. *)
Definition visitCell (csg_polygons : list CSG.Polygon) (step x y z : Q)
           (cubes : list Cube) : list Cube :=
  if insideCell csg_polygons step x y z
  then cubes ++ [newVoxel x y z step]
  else cubes.

Section Loops.

Variable csg_polygons : list CSG.Polygon.
Variable step : Q.
Variable bounds : CSG.Bounds.

(** [for (let z = bounds.min.z; z < bounds.max.z; z += step)] *)
Fixpoint loop_z (fuel : nat) (x y z : Q) (cubes : list Cube) : Outcome (list Cube) :=
  match fuel with
  | O => OutOfFuel
  | S fuel' =>
      if Qltb z (CSG.z (CSG.max bounds))
      then loop_z fuel' x y (z + step) (visitCell csg_polygons step x y z cubes)
      else Returned cubes
  end.

(** [for (let y = bounds.min.y; y < bounds.max.y; y += step)] *)
Fixpoint loop_y (fuel : nat) (x y : Q) (cubes : list Cube) : Outcome (list Cube) :=
  match fuel with
  | O => OutOfFuel
  | S fuel' =>
      if Qltb y (CSG.y (CSG.max bounds))
      then match loop_z fuel' x y (CSG.z (CSG.min bounds)) cubes with
           | Returned cubes' => loop_y fuel' x (y + step) cubes'
           | Thrown e => Thrown e
           | OutOfFuel => OutOfFuel
           end
      else Returned cubes
  end.

(** [for (let x = bounds.min.x; x < bounds.max.x; x += step)] *)
Fixpoint loop_x (fuel : nat) (x : Q) (cubes : list Cube) : Outcome (list Cube) :=
  match fuel with
  | O => OutOfFuel
  | S fuel' =>
      if Qltb x (CSG.x (CSG.max bounds))
      then match loop_y fuel' x (CSG.y (CSG.min bounds)) cubes with
           | Returned cubes' => loop_x fuel' (x + step) cubes'
           | Thrown e => Thrown e
           | OutOfFuel => OutOfFuel
           end
      else Returned cubes
  end.

End Loops.

(** The heuristic range [{min: {x: 0, y: 0, z: 0}, max: {x: 16, y: 16, z: 16}}]. *)
Definition defaultBounds : CSG.Bounds :=
  CSG.mkBounds (CSG.mkVector 0 0 0) (CSG.mkVector 16 16 16).

(** [csg_solid.getBounds ? csg_solid.getBounds() : {min: ..., max: ...}]
    (ransowere.js line 120). *)
Definition gridBounds (csg_solid : CSG.Solid) : CSG.Bounds :=
  match CSG.getBounds csg_solid with
  | Some b => b
  | None => defaultBounds
  end.

(** [csgToCubes(csg_solid, resolution)] of ransowere.js.  Each loop spends
    one unit of fuel per test of its condition. *)
Definition csgToCubes (fuel : nat) (csg_solid : CSG.Solid) (resolution : Q)
  : Outcome (list Cube) :=
  let csg_polygons := CSG.toPolygons csg_solid in
  let step := resolution in
  let bounds := gridBounds csg_solid in
  loop_x csg_polygons step bounds fuel (CSG.x (CSG.min bounds)) [].

(** The earlier draft (part_000): it returns [[]] when the library is not
    loaded and always scans the fixed range 0..16. *)
Module Draft.

Definition csgToCubes (csg_defined : bool) (fuel : nat) (csg_solid : CSG.Solid)
           (resolution : Q) : Outcome (list Cube) :=
  if negb csg_defined then Returned []
  else
    let csg_polygons := CSG.toPolygons csg_solid in
    let step := resolution in
    loop_x csg_polygons step defaultBounds fuel (CSG.x (CSG.min defaultBounds)) [].

End Draft.

(** ** 1. Matrices and transformations *)

(** [Math.cos], [Math.sin] and the factor of [THREE.Math.degToRad]
    (pi / 180) as the host provides them: functions on numbers. *)
Class HostMath : Type := {
  cos : Q -> Q;
  sin : Q -> Q;
  DEG2RAD : Q
}.

(** What is known of them at the angle zero. *)
Class HostMathZero (H : HostMath) : Prop := {
  cos_compat : forall a b, a == b -> cos a == cos b;
  sin_compat : forall a b, a == b -> sin a == sin b;
  cos_0 : cos 0 == 1;
  sin_0 : sin 0 == 0
}.

(** The part of [THREE.Matrix4] that the plugin uses.  three.js is supplied
    by the host and is not part of the sources; the operations below follow
    its documented behaviour.  The entries are named as in
    [Matrix4.set(n11, n12, ..., n44)] (row, then column); [elements] is the
    column-major array of 16 numbers. *)
Module THREE.

Record Matrix4 : Type := set {
  n11 : Q; n12 : Q; n13 : Q; n14 : Q;
  n21 : Q; n22 : Q; n23 : Q; n24 : Q;
  n31 : Q; n32 : Q; n33 : Q; n34 : Q;
  n41 : Q; n42 : Q; n43 : Q; n44 : Q
}.

Definition elements (m : Matrix4) : list Q :=
  [ n11 m; n21 m; n31 m; n41 m;
    n12 m; n22 m; n32 m; n42 m;
    n13 m; n23 m; n33 m; n43 m;
    n14 m; n24 m; n34 m; n44 m ].

(** [new THREE.Matrix4()] *)
Definition identity : Matrix4 :=
  set 1 0 0 0
      0 1 0 0
      0 0 1 0
      0 0 0 1.

Definition makeTranslation (x y z : Q) : Matrix4 :=
  set 1 0 0 x
      0 1 0 y
      0 0 1 z
      0 0 0 1.

Definition makeRotationX {math : HostMath} (theta : Q) : Matrix4 :=
  let c := cos theta in
  let s := sin theta in
  set 1 0 0 0
      0 c (- s) 0
      0 s c 0
      0 0 0 1.

Definition makeRotationY {math : HostMath} (theta : Q) : Matrix4 :=
  let c := cos theta in
  let s := sin theta in
  set c 0 s 0
      0 1 0 0
      (- s) 0 c 0
      0 0 0 1.

Definition makeRotationZ {math : HostMath} (theta : Q) : Matrix4 :=
  let c := cos theta in
  let s := sin theta in
  set c (- s) 0 0
      s c 0 0
      0 0 1 0
      0 0 0 1.

(** [multiplyMatrices(a, b)]: the product [a * b]. *)
Definition multiplyMatrices (a b : Matrix4) : Matrix4 :=
  set (n11 a * n11 b + n12 a * n21 b + n13 a * n31 b + n14 a * n41 b)
      (n11 a * n12 b + n12 a * n22 b + n13 a * n32 b + n14 a * n42 b)
      (n11 a * n13 b + n12 a * n23 b + n13 a * n33 b + n14 a * n43 b)
      (n11 a * n14 b + n12 a * n24 b + n13 a * n34 b + n14 a * n44 b)
      (n21 a * n11 b + n22 a * n21 b + n23 a * n31 b + n24 a * n41 b)
      (n21 a * n12 b + n22 a * n22 b + n23 a * n32 b + n24 a * n42 b)
      (n21 a * n13 b + n22 a * n23 b + n23 a * n33 b + n24 a * n43 b)
      (n21 a * n14 b + n22 a * n24 b + n23 a * n34 b + n24 a * n44 b)
      (n31 a * n11 b + n32 a * n21 b + n33 a * n31 b + n34 a * n41 b)
      (n31 a * n12 b + n32 a * n22 b + n33 a * n32 b + n34 a * n42 b)
      (n31 a * n13 b + n32 a * n23 b + n33 a * n33 b + n34 a * n43 b)
      (n31 a * n14 b + n32 a * n24 b + n33 a * n34 b + n34 a * n44 b)
      (n41 a * n11 b + n42 a * n21 b + n43 a * n31 b + n44 a * n41 b)
      (n41 a * n12 b + n42 a * n22 b + n43 a * n32 b + n44 a * n42 b)
      (n41 a * n13 b + n42 a * n23 b + n43 a * n33 b + n44 a * n43 b)
      (n41 a * n14 b + n42 a * n24 b + n43 a * n34 b + n44 a * n44 b).

(** [a.multiply(b)] is [multiplyMatrices(a, b)]. *)
Definition multiply (a b : Matrix4) : Matrix4 := multiplyMatrices a b.

Module Math.

(** [THREE.Math.degToRad(degrees)] *)
Definition degToRad {math : HostMath} (degrees : Q) : Q := degrees * DEG2RAD.

End Math.

End THREE.

Section Transform.

Context {math : HostMath}.

(** [Meshplus.getTransformationMatrix(cube)] up to [M]; the function
    returns [M.elements]. *)
Definition transformationMatrix (cube : Cube) : THREE.Matrix4 :=
  let pivot := origin cube in
  let rotation := rotation cube in
  let T1 := THREE.makeTranslation (- CSG.x pivot) (- CSG.y pivot) (- CSG.z pivot) in
  let Rx := THREE.makeRotationX (THREE.Math.degToRad (CSG.x rotation)) in
  let Ry := THREE.makeRotationY (THREE.Math.degToRad (CSG.y rotation)) in
  let Rz := THREE.makeRotationZ (THREE.Math.degToRad (CSG.z rotation)) in
  let R := THREE.multiply (THREE.multiplyMatrices Rz Ry) Rx in
  let T2 := THREE.makeTranslation (CSG.x pivot) (CSG.y pivot) (CSG.z pivot) in
  let M := THREE.multiply (THREE.multiply T2 R) T1 in
  M.

Definition getTransformationMatrix (cube : Cube) : list Q :=
  THREE.elements (transformationMatrix cube).

End Transform.

(** ** The CSG library as the plugin calls it *)

(** [CSG.cube], [translate], [transform] and the boolean operations come
    from the library loaded from the CDN, which is not part of the sources:
    they are parameters of the pipeline. *)
Class CSGLibrary : Type := {
  CSG_cube : CSG.Vector -> CSG.Vector -> CSG.Solid;  (* {center, radius} *)
  translate : CSG.Solid -> CSG.Vector -> CSG.Solid;
  transform : CSG.Solid -> list Q -> CSG.Solid;
  subtract : CSG.Solid -> CSG.Solid -> CSG.Solid;
  union : CSG.Solid -> CSG.Solid -> CSG.Solid;
  intersect : CSG.Solid -> CSG.Solid -> CSG.Solid
}.

Section Converter.

Context {math : HostMath} {lib : CSGLibrary}.

(** [typeof THREE !== 'undefined'] *)
Variable three_defined : bool.

(** [cube.rotation.some(r => r !== 0)] *)
Definition someRotation (cube : Cube) : bool :=
  Qneqb (CSG.x (rotation cube)) 0
  || Qneqb (CSG.y (rotation cube)) 0
  || Qneqb (CSG.z (rotation cube)) 0.

(** [Meshplus.cubeToCSG(cube)] *)
Definition cubeToCSG (cube : Cube) : Outcome CSG.Solid :=
  if negb three_defined then Thrown ThreeMissing
  else
    let from := from cube in
    let to := to cube in
    let center := CSG.mkVector ((CSG.x from + CSG.x to) / 2)
                               ((CSG.y from + CSG.y to) / 2)
                               ((CSG.z from + CSG.z to) / 2) in
    let size := CSG.mkVector (CSG.x to - CSG.x from)
                             (CSG.y to - CSG.y from)
                             (CSG.z to - CSG.z from) in
    let csg_solid :=
      CSG_cube (CSG.mkVector 0 0 0)
               (CSG.mkVector (CSG.x size / 2) (CSG.y size / 2) (CSG.z size / 2)) in
    let csg_solid :=
      translate csg_solid (CSG.mkVector (CSG.x center) (CSG.y center) (CSG.z center)) in
    let csg_solid :=
      if someRotation cube
      then transform csg_solid (getTransformationMatrix cube)
      else csg_solid in
    Returned csg_solid.

End Converter.

(** ** 3. Execution *)

(** Sequencing of calls that may throw or not return. *)
Definition bind {A B : Type} (c : Outcome A) (k : A -> Outcome B) : Outcome B :=
  match c with
  | Returned a => k a
  | Thrown e => Thrown e
  | OutOfFuel => OutOfFuel
  end.

Notation "x <- c ;; k" := (bind c (fun x => k))
  (at level 61, c at next level, right associativity).

(** The host state that [executeCSGOperation] touches: the [Cube] objects
    by reference (their index in [heap]), the elements of the scene, and
    the selection [Group.selected.concat(Cube.selected)]. *)
Record Host : Type := mkHost {
  heap : list Cube;
  elements : list nat;
  selected : list nat
}.

(** The value of a selection entry; [None] is [undefined]. *)
Definition deref (host : Host) (i : nat) : option Cube :=
  match nth_error (selected host) i with
  | Some r => nth_error (heap host) r
  | None => None
  end.

(** [selection.forEach(el => el.remove()); new_cubes.forEach(cube => cube.add(parent))]
    (lines 205-206).  [remove] and [add] are methods of Blockbench, whose
    code is not part of the sources: this is the reading of them that the
    state component of [executeCSGOperation] carries, the selected
    elements taken out of the scene and the voxels put into it.  No
    property below is stated on it; what the function does to the scene is
    stated on the calls themselves, in [HostCalls]. *)
Definition replaceSelection (host : Host) (new_cubes : list Cube) : Host :=
  let removed r := existsb (Nat.eqb r) (selected host) in
  mkHost (heap host ++ new_cubes)
         (filter (fun r => negb (removed r)) (elements host)
          ++ seq (List.length (heap host)) (List.length new_cubes))
         [].

Section Execute.

Context {math : HostMath} {lib : CSGLibrary}.
Variable three_defined : bool.

(** [Meshplus.cubeToCSG(el)] for a selection entry that may be
    [undefined]: the check of [THREE] comes first, then [cube.from]
    fails on [undefined]. *)
Definition callCubeToCSG (el : option Cube) : Outcome CSG.Solid :=
  match el with
  | Some cube => cubeToCSG three_defined cube
  | None => if negb three_defined then Thrown ThreeMissing else Thrown TypeError
  end.

(** [executeCSGOperation()] of ransowere.js, with the two values it reads
    from the dialog as arguments, up to the scene update of lines 205-206.
    It returns the voxels it added, or [None] when the [switch] takes
    [default: return] (only ['subtract'] has a case in this draft).  The
    calls the function makes into the host, and the lines 208-211 that
    follow the update, are in [HostCalls.executeCSGOperation]. *)
Definition executeCSGOperation (fuel : nat) (host : Host) (mode : string) (resolution : Q)
  : Outcome (option (list Cube)) * Host :=
  let target_element := deref host 0 in
  let modifier_element := deref host 1 in
  let computed :=
    csg_solid_A <- callCubeToCSG target_element ;;
    csg_solid_B <- callCubeToCSG modifier_element ;;
    if String.eqb mode "subtract"
    then
      let result_solid := subtract csg_solid_A csg_solid_B in
      new_cubes <- csgToCubes fuel result_solid resolution ;;
      Returned (Some new_cubes)
    else Returned None in
  match computed with
  | Returned (Some new_cubes) => (Returned (Some new_cubes), replaceSelection host new_cubes)
  | other => (other, host)
  end.

End Execute.

(** ** The workshop of the earlier draft (part_000) *)

Module Workshop.

(** An entry of [custom_renderer.meshes]: [{solid, color, fillColor}]. *)
Record Mesh : Type := mkMesh { solid : CSG.Solid; color : string; fillColor : string }.

(** [custom_renderer]: [None] is [null]; of the renderer only its
    [meshes] matter here. *)
Definition Renderer : Type := option (list Mesh).

(** The converter that [onload] of this draft installs as
    [Meshplus.cubeToCSG]:
    [(cube) => CSG.cube({center: [0, 0, 0], radius: [8, 8, 8]})
                  .translate([cube.from[0] + 8, cube.from[1] + 8, cube.from[2] + 8])]. *)
Definition cubeToCSG {lib : CSGLibrary} (cube : Cube) : CSG.Solid :=
  translate (CSG_cube (CSG.mkVector 0 0 0) (CSG.mkVector 8 8 8))
            (CSG.mkVector (CSG.x (from cube) + 8) (CSG.y (from cube) + 8)
                          (CSG.z (from cube) + 8)).

(** [loadSelectionIntoWorkshop()]: it returns the new value of
    [custom_renderer].  An entry of the selection that is no object makes
    the converter fail on [cube.from]. *)
Definition loadSelectionIntoWorkshop {lib : CSGLibrary} (host : Host)
           (custom_renderer : Renderer) : Outcome unit * Renderer :=
  match custom_renderer with
  | None => (Returned tt, None)
  | Some _ =>
      let meshes : list Mesh := [] in
      let selection := selected host in
      if negb (Nat.eqb (List.length selection) 2) then (Returned tt, Some meshes)
      else
        match deref host 0, deref host 1 with
        | Some el0, Some el1 =>
            let csg_solid_A := cubeToCSG el0 in
            let csg_solid_B := cubeToCSG el1 in
            let meshes :=
              meshes ++ [mkMesh csg_solid_A "rgb(0, 150, 255)" "rgba(0, 150, 255, 0.5)"] in
            let meshes :=
              meshes ++ [mkMesh csg_solid_B "rgb(255, 50, 50)" "rgba(255, 50, 50, 0.5)"] in
            (Returned tt, Some meshes)
        | _, _ => (Thrown TypeError, Some meshes)
        end
  end.

(** The [switch (mode)] of this draft: [None] is [default: return]. *)
Definition combine {lib : CSGLibrary} (mode : string) (a b : CSG.Solid) : option CSG.Solid :=
  if String.eqb mode "subtract" then Some (subtract a b)
  else if String.eqb mode "union" then Some (union a b)
  else if String.eqb mode "intersect" then Some (intersect a b)
  else None.

(** [executeCSGOperation()] of this draft, with the two values it reads
    from the dialog as arguments.  The operands are the meshes loaded
    before; the selection is read again, for Undo and for the parent
    ([selection[0].parent] fails when nothing is selected). *)
Definition executeCSGOperation {lib : CSGLibrary} (csg_defined : bool) (fuel : nat)
           (host : Host) (custom_renderer : Renderer) (mode : string) (resolution : Q)
  : Outcome (option (list Cube)) * Host :=
  match custom_renderer with
  | None => (Thrown TypeError, host)
  | Some meshes =>
      if negb (Nat.eqb (List.length meshes) 2) then (Returned None, host)
      else
        match meshes with
        | item_A :: item_B :: _ =>
            match combine mode (solid item_A) (solid item_B) with
            | None => (Returned None, host)
            | Some result_solid =>
                let selection := selected host in
                match Draft.csgToCubes csg_defined fuel result_solid resolution with
                | Returned new_cubes =>
                    match selection with
                    | [] => (Thrown TypeError, host)
                    | _ :: _ => (Returned (Some new_cubes), replaceSelection host new_cubes)
                    end
                | Thrown e => (Thrown e, host)
                | OutOfFuel => (OutOfFuel, host)
                end
            end
        | _ => (Returned None, host)
        end
  end.

End Workshop.

(** ** The host calls of [executeCSGOperation] (ransowere.js) *)

Module HostCalls.

(** The two status messages of the function. *)
Inductive StatusMessage : Type :=
| Executing (mode : string)      (* `Executando ${mode.toUpperCase()} CSG...` *)
| Done (voxels : nat).           (* `... ${new_cubes.length} voxels gerados.` *)

(** A call into the host.  Blockbench is not part of the sources: the
    calls are recorded in the order in which the function makes them, and
    not interpreted.  Elements are named by reference; the parent given
    to [add] is [selection[0].parent]. *)
Inductive Call : Type :=
| Blockbench_setStatusBarText (message : StatusMessage)
| Undo_initEdit (elements : list nat)
| remove (el : nat)
| add (cube : Cube) (parent_of : option nat)
| Undo_finishEdit (mode : string)
| Canvas_updateView
| workshop_dialog_hide.

Section Calls.

Context {math : HostMath} {lib : CSGLibrary}.
Variable three_defined : bool.

(** [let action_workshop, workshop_dialog;] (line 4).  Nothing in
    ransowere.js assigns the variable, so that it is [undefined] ([None])
    when the function runs; the earlier draft assigns it in
    [openWorkshop]. *)
Variable workshop_dialog : option string.

(** The whole of [executeCSGOperation()], lines 175-212: the outcome of
    the call and the calls made into the host before it ended. *)
Definition executeCSGOperation (fuel : nat) (host : Host) (mode : string) (resolution : Q)
  : Outcome unit * list Call :=
  let selection := selected host in
  let target_element := deref host 0 in
  let modifier_element := deref host 1 in
  let calls := [Blockbench_setStatusBarText (Executing mode)] in
  match callCubeToCSG three_defined target_element with
  | Thrown e => (Thrown e, calls)
  | OutOfFuel => (OutOfFuel, calls)
  | Returned csg_solid_A =>
      match callCubeToCSG three_defined modifier_element with
      | Thrown e => (Thrown e, calls)
      | OutOfFuel => (OutOfFuel, calls)
      | Returned csg_solid_B =>
          if String.eqb mode "subtract"
          then
            let result_solid := subtract csg_solid_A csg_solid_B in
            match csgToCubes fuel result_solid resolution with
            | Thrown e => (Thrown e, calls)
            | OutOfFuel => (OutOfFuel, calls)
            | Returned new_cubes =>
                let calls := calls ++ [Undo_initEdit selection] in
                let parent := hd_error selection in
                let calls := calls ++ map remove selection in
                let calls := calls ++ map (fun cube => add cube parent) new_cubes in
                let calls := calls ++ [Undo_finishEdit mode] in
                let calls := calls ++ [Canvas_updateView] in
                match workshop_dialog with
                | None => (Thrown TypeError, calls)
                | Some _ =>
                    let calls := calls ++ [workshop_dialog_hide] in
                    let calls :=
                      calls ++ [Blockbench_setStatusBarText (Done (List.length new_cubes))] in
                    (Returned tt, calls)
                end
            end
          else (Returned tt, calls)
      end
  end.

End Calls.

End HostCalls.

(** ** The specification's side *)

(** *** The point-in-polygon test of section 4.4 (c) *)

Inductive Axis : Type := AxisX | AxisY | AxisZ.

(** The axis along which the normal is largest in absolute value. *)
Definition dominantAxis (n : CSG.Vector) : Axis :=
  let ax := Qabs (CSG.x n) in
  let ay := Qabs (CSG.y n) in
  let az := Qabs (CSG.z n) in
  if Qle_bool ay ax && Qle_bool az ax then AxisX
  else if Qle_bool az ay then AxisY
  else AxisZ.

(** Projection onto the two other axes. *)
Definition dropAxis (a : Axis) (v : CSG.Vector) : Q * Q :=
  match a with
  | AxisX => (CSG.y v, CSG.z v)
  | AxisY => (CSG.z v, CSG.x v)
  | AxisZ => (CSG.x v, CSG.y v)
  end.

(** Does the horizontal half-line from [p] towards +u cross the edge [a b]? *)
Definition edgeCrossed (p a b : Q * Q) : bool :=
  let '(pu, pv) := p in
  let '(au, av) := a in
  let '(bu, bv) := b in
  negb (Bool.eqb (Qltb pv av) (Qltb pv bv))
  && Qltb pu (au + (pv - av) * (bu - au) / (bv - av)).

(** The edges of a closed polygon: each vertex with its successor. *)
Definition closedEdges {A : Type} (vs : list A) : list (A * A) :=
  combine vs (tl vs ++ firstn 1 vs).

(** Even-odd rule in the plane. *)
Definition pointInPolygon2D (p : Q * Q) (vs : list (Q * Q)) : bool :=
  Nat.odd (List.length (filter (fun e => edgeCrossed p (fst e) (snd e)) (closedEdges vs))).

(** Modelled from the spec: the test (c) of section 4.4, "the intersection
    point lies inside the polygon's 2D projection (point-in-polygon test
    after projecting both polygon and point onto the plane's dominant axis
    pair)", which [csgToCubes] leaves out. *)
Definition insidePolygonProjection (point : CSG.Vector) (polygon : CSG.Polygon) : bool :=
  let a := dominantAxis (CSG.normal (CSG.plane polygon)) in
  pointInPolygon2D (dropAxis a point) (map (dropAxis a) (CSG.vertices polygon)).

(** Modelled from the spec: the three conditions (a), (b), (c) of section
    4.4 under which an intersection is to be counted. *)
Definition specCounts (center_point : CSG.Vector) (polygon : CSG.Polygon) : bool :=
  let plane := CSG.plane polygon in
  let denom := CSG.dot (CSG.normal plane) ray_direction in
  let t := (CSG.w plane - CSG.dot (CSG.normal plane) center_point) / denom in
  Qltb EPSILON (Qabs denom)
  && Qltb EPSILON t
  && insidePolygonProjection (intersectionPoint center_point polygon) polygon.

(** *** The sample grid of section 4.4 *)

(** [n] points from [lo] on, [step] apart. *)
Fixpoint axisFrom (n : nat) (lo step : Q) : list Q :=
  match n with
  | O => []
  | S n' => lo :: axisFrom n' (lo + step) step
  end.

(** The number of [step]-sized cells needed to cover [[lo, hi)]. *)
Definition cellCount (lo hi step : Q) : nat := Z.to_nat (Qceiling ((hi - lo) / step)).

Definition gridAxis (lo hi step : Q) : list Q := axisFrom (cellCount lo hi step) lo step.

(** The low corners of the cells, in lexicographic order of (x, y, z). *)
Definition gridCells (b : CSG.Bounds) (step : Q) : list CSG.Vector :=
  flat_map (fun x =>
    flat_map (fun y =>
      map (fun z => CSG.mkVector x y z)
          (gridAxis (CSG.z (CSG.min b)) (CSG.z (CSG.max b)) step))
      (gridAxis (CSG.y (CSG.min b)) (CSG.y (CSG.max b)) step))
    (gridAxis (CSG.x (CSG.min b)) (CSG.x (CSG.max b)) step).

(** One voxel per cell whose centre is classified inside. *)
Definition voxelGrid (polygons : list CSG.Polygon) (b : CSG.Bounds) (step : Q) : list Cube :=
  map (fun c => newVoxel (CSG.x c) (CSG.y c) (CSG.z c) step)
      (filter (fun c => insideCell polygons step (CSG.x c) (CSG.y c) (CSG.z c))
              (gridCells b step)).

(** Fuel that suffices for the three loops when [step] is positive. *)
Definition gridFuel (b : CSG.Bounds) (step : Q) : nat :=
  S (S (S (cellCount (CSG.x (CSG.min b)) (CSG.x (CSG.max b)) step
           + cellCount (CSG.y (CSG.min b)) (CSG.y (CSG.max b)) step
           + cellCount (CSG.z (CSG.min b)) (CSG.z (CSG.max b)) step))).

(** Lexicographic order of the low corners. *)
Definition lexLt (a b : CSG.Vector) : Prop :=
  CSG.x a < CSG.x b
  \/ (CSG.x a == CSG.x b /\ CSG.y a < CSG.y b)
  \/ (CSG.x a == CSG.x b /\ CSG.y a == CSG.y b /\ CSG.z a < CSG.z b).

(** The axis-aligned bounding box of a list of points ([None] when empty). *)
Definition Qmin2 (a b : Q) : Q := if Qle_bool a b then a else b.
Definition Qmax2 (a b : Q) : Q := if Qle_bool a b then b else a.

Definition boundingBox (vs : list CSG.Vector) : option CSG.Bounds :=
  match vs with
  | [] => None
  | v :: vs' =>
      Some (fold_left
              (fun b u =>
                 CSG.mkBounds
                   (CSG.mkVector (Qmin2 (CSG.x (CSG.min b)) (CSG.x u))
                                 (Qmin2 (CSG.y (CSG.min b)) (CSG.y u))
                                 (Qmin2 (CSG.z (CSG.min b)) (CSG.z u)))
                   (CSG.mkVector (Qmax2 (CSG.x (CSG.max b)) (CSG.x u))
                                 (Qmax2 (CSG.y (CSG.max b)) (CSG.y u))
                                 (Qmax2 (CSG.z (CSG.max b)) (CSG.z u))))
              vs' (CSG.mkBounds v v))
  end.

Definition solidVertices (s : CSG.Solid) : list CSG.Vector :=
  flat_map CSG.vertices (CSG.toPolygons s).

(** A plane parallel to a coordinate plane seen from the ray: its normal
    is along x, or has no x component. *)
Definition axisParallel (polygon : CSG.Polygon) : Prop :=
  let n := CSG.normal (CSG.plane polygon) in
  (CSG.y n == 0 /\ CSG.z n == 0) \/ CSG.x n == 0.

Definition axisParallelb (polygon : CSG.Polygon) : bool :=
  let n := CSG.normal (CSG.plane polygon) in
  (Qeq_bool (CSG.y n) 0 && Qeq_bool (CSG.z n) 0) || Qeq_bool (CSG.x n) 0.

(** *** A reference CSG library *)

(** Modelled from the spec: the CSG library itself (CSG.js, loaded from a
    CDN) is missing from the sources.  This module follows sections 4.2
    and 4.3: the hexahedron of a box, translation, the matrix transform,
    and the boolean operations by binary-space-partition clipping with the
    shared tolerance [EPSILON].  Bounds are recomputed from the vertices
    (section 3). *)
Module SpecCSG.

Definition negated (v : CSG.Vector) : CSG.Vector :=
  CSG.mkVector (- CSG.x v) (- CSG.y v) (- CSG.z v).
Definition minus (a b : CSG.Vector) : CSG.Vector :=
  CSG.mkVector (CSG.x a - CSG.x b) (CSG.y a - CSG.y b) (CSG.z a - CSG.z b).
(** Numbers are kept in lowest terms; this changes no value. *)
Definition reduced (v : CSG.Vector) : CSG.Vector :=
  CSG.mkVector (Qred (CSG.x v)) (Qred (CSG.y v)) (Qred (CSG.z v)).
Definition lerp (a b : CSG.Vector) (t : Q) : CSG.Vector :=
  reduced (CSG.plus a (CSG.times (minus b a) t)).


(** Modelled from the spec: a solid made of polygons, with the bounding
    box "recomputed from a Solid's vertices" (section 3) as its
    [getBounds]. *)
Definition fromPolygons (ps : list CSG.Polygon) : CSG.Solid :=
  CSG.mkSolid ps (boundingBox (flat_map CSG.vertices ps)).

(** Modelled from the spec: section 4.2 (2), six quads with outward
    normals along -X, +X, -Y, +Y, -Z, +Z, scaled by the half-extents.
    Corner [i] has its bit 0, 1, 2 set when it is on the high side of
    x, y, z. *)
Definition corner (c r : CSG.Vector) (i : nat) : CSG.Vector :=
  reduced
    (CSG.mkVector (CSG.x c + CSG.x r * (if Nat.testbit i 0 then 1 else -1))
                  (CSG.y c + CSG.y r * (if Nat.testbit i 1 then 1 else -1))
                  (CSG.z c + CSG.z r * (if Nat.testbit i 2 then 1 else -1))).

Definition faceTable : list (list nat * CSG.Vector) :=
  [ ([0; 4; 6; 2]%nat, CSG.mkVector (-1) 0 0);
    ([1; 3; 7; 5]%nat, CSG.mkVector 1 0 0);
    ([0; 1; 5; 4]%nat, CSG.mkVector 0 (-1) 0);
    ([2; 6; 7; 3]%nat, CSG.mkVector 0 1 0);
    ([0; 2; 3; 1]%nat, CSG.mkVector 0 0 (-1));
    ([4; 5; 7; 6]%nat, CSG.mkVector 0 0 1) ].

Definition face (c r : CSG.Vector) (info : list nat * CSG.Vector) : CSG.Polygon :=
  let vs := map (corner c r) (fst info) in
  let n := snd info in
  CSG.mkPolygon vs (CSG.mkPlane n (Qred (CSG.dot n (hd c vs)))).

Definition cube (center radius : CSG.Vector) : CSG.Solid :=
  fromPolygons (map (face center radius) faceTable).

(** Modelled from the spec: section 4.2 (3), every vertex moves by
    [offset]; so does the plane. *)
Definition translatePolygon (offset : CSG.Vector) (p : CSG.Polygon) : CSG.Polygon :=
  let n := CSG.normal (CSG.plane p) in
  CSG.mkPolygon (map (fun v => reduced (CSG.plus v offset)) (CSG.vertices p))
                (CSG.mkPlane n (Qred (CSG.w (CSG.plane p) + CSG.dot n offset))).

Definition translate (s : CSG.Solid) (offset : CSG.Vector) : CSG.Solid :=
  fromPolygons (map (translatePolygon offset) (CSG.toPolygons s)).

(** Modelled from the spec: section 4.2 (4), a column-major 4x4 matrix
    applied to a point. *)
Definition applyMatrix (m : list Q) (v : CSG.Vector) : CSG.Vector :=
  let e i := nth i m 0 in
  CSG.mkVector
    (e 0%nat * CSG.x v + e 4%nat * CSG.y v + e 8%nat * CSG.z v + e 12%nat)
    (e 1%nat * CSG.x v + e 5%nat * CSG.y v + e 9%nat * CSG.z v + e 13%nat)
    (e 2%nat * CSG.x v + e 6%nat * CSG.y v + e 10%nat * CSG.z v + e 14%nat).

(** Its linear part, applied to a direction. *)
Definition applyLinear (m : list Q) (v : CSG.Vector) : CSG.Vector :=
  let e i := nth i m 0 in
  CSG.mkVector
    (e 0%nat * CSG.x v + e 4%nat * CSG.y v + e 8%nat * CSG.z v)
    (e 1%nat * CSG.x v + e 5%nat * CSG.y v + e 9%nat * CSG.z v)
    (e 2%nat * CSG.x v + e 6%nat * CSG.y v + e 10%nat * CSG.z v).

(** Modelled from the spec: section 4.2 (4), the plane is recomputed
    after the transform.  For the rigid matrices of the Transform Builder
    the unit normal of the moved face is the image of the normal under the
    linear part, and the offset is taken at the first moved vertex. *)
Definition transformPolygon (m : list Q) (p : CSG.Polygon) : CSG.Polygon :=
  let vs := map (applyMatrix m) (CSG.vertices p) in
  let n := applyLinear m (CSG.normal (CSG.plane p)) in
  CSG.mkPolygon vs (CSG.mkPlane n (CSG.dot n (hd (CSG.mkVector 0 0 0) vs))).

Definition transform (s : CSG.Solid) (m : list Q) : CSG.Solid :=
  fromPolygons (map (transformPolygon m) (CSG.toPolygons s)).

(** Section 4.3: reversing a polygon's orientation. *)
Definition flipPlane (pl : CSG.Plane) : CSG.Plane :=
  CSG.mkPlane (negated (CSG.normal pl)) (- CSG.w pl).
Definition flipPolygon (p : CSG.Polygon) : CSG.Polygon :=
  CSG.mkPolygon (rev (CSG.vertices p)) (flipPlane (CSG.plane p)).

(** Where a point lies with respect to a plane, with tolerance. *)
Inductive Side : Type := COPLANAR | FRONT | BACK | SPANNING.

Definition join (a b : Side) : Side :=
  match a, b with
  | COPLANAR, s | s, COPLANAR => s
  | FRONT, FRONT => FRONT
  | BACK, BACK => BACK
  | _, _ => SPANNING
  end.

Definition isFront (s : Side) : bool := match s with FRONT => true | _ => false end.
Definition isBack (s : Side) : bool := match s with BACK => true | _ => false end.
Definition isSpanning (s : Side) : bool := match s with SPANNING => true | _ => false end.

Definition classify (pl : CSG.Plane) (v : CSG.Vector) : Side :=
  let t := CSG.dot (CSG.normal pl) v - CSG.w pl in
  if Qltb t (- EPSILON) then BACK
  else if Qltb EPSILON t then FRONT
  else COPLANAR.

(** The four destinations of the pieces of one polygon. *)
Record Pieces : Type := mkPieces {
  coplanarFront : list CSG.Polygon;
  coplanarBack : list CSG.Polygon;
  front : list CSG.Polygon;
  back : list CSG.Polygon
}.

(** The two fragments of a polygon that straddles the plane: walk the
    edges, keep each vertex on its side (a coplanar vertex on both), and
    add the crossing point of every edge that changes side. *)
Definition splitSpanning (pl : CSG.Plane) (vs : list CSG.Vector)
  : list CSG.Vector * list CSG.Vector :=
  fold_left
    (fun fb e =>
       let '(vi, vj) := e in
       let ti := classify pl vi in
       let tj := classify pl vj in
       let f1 := if isBack ti then fst fb else fst fb ++ [vi] in
       let b1 := if isFront ti then snd fb else snd fb ++ [vi] in
       if isSpanning (join ti tj)
       then
         let t := (CSG.w pl - CSG.dot (CSG.normal pl) vi)
                  / CSG.dot (CSG.normal pl) (minus vj vi) in
         let v := lerp vi vj t in
         (f1 ++ [v], b1 ++ [v])
       else (f1, b1))
    (closedEdges vs) ([], []).

(** Modelled from the spec: the tie-break policy of section 4.3.  A
    polygon within tolerance of the plane is coplanar, and goes to the
    front or to the back with the direction of its normal; a straddling
    polygon gives two fragments that keep its plane. *)
Definition splitPolygon (pl : CSG.Plane) (p : CSG.Polygon) : Pieces :=
  let polygonType := fold_left (fun s v => join s (classify pl v)) (CSG.vertices p) COPLANAR in
  match polygonType with
  | COPLANAR =>
      if Qltb 0 (CSG.dot (CSG.normal pl) (CSG.normal (CSG.plane p)))
      then mkPieces [p] [] [] []
      else mkPieces [] [p] [] []
  | FRONT => mkPieces [] [] [p] []
  | BACK => mkPieces [] [] [] [p]
  | SPANNING =>
      let '(f, b) := splitSpanning pl (CSG.vertices p) in
      mkPieces [] []
               (if (3 <=? List.length f)%nat then [CSG.mkPolygon f (CSG.plane p)] else [])
               (if (3 <=? List.length b)%nat then [CSG.mkPolygon b (CSG.plane p)] else [])
  end.

(** A node of the BSP tree: its splitting plane (none while the node is
    empty), the polygons in that plane, and the two subtrees. *)
#[local] Unset Elimination Schemes.
Inductive Node : Type :=
| mkNode (plane : option CSG.Plane) (polygons : list CSG.Polygon)
         (frontNode backNode : option Node).
#[local] Set Elimination Schemes.

Definition emptyNode : Node := mkNode None [] None None.

Fixpoint size (n : Node) : nat :=
  match n with
  | mkNode _ ps f b =>
      S (match f with Some f' => size f' | None => 0 end
         + match b with Some b' => size b' | None => 0 end)
  end.

(** Modelled from the spec: steps 1 and 2 of section 4.3, insert polygons
    into a tree; the first polygon gives the splitting plane of an empty
    node. *)
Fixpoint build (fuel : nat) (node : Node) (polys : list CSG.Polygon) : Node :=
  match fuel, polys, node with
  | S fuel', p0 :: _, mkNode pl here f b =>
      let plane := match pl with Some plane => plane | None => CSG.plane p0 end in
      let parts := map (splitPolygon plane) polys in
      let here' := here ++ flat_map (fun r => coplanarFront r ++ coplanarBack r) parts in
      let fs := flat_map front parts in
      let bs := flat_map back parts in
      let sub child ps :=
        match ps with
        | [] => child
        | _ => Some (build fuel' (match child with Some c => c | None => emptyNode end) ps)
        end in
      mkNode (Some plane) here' (sub f fs) (sub b bs)
  | _, _, _ => node
  end.

Definition newNode (polys : list CSG.Polygon) : Node :=
  build (S (List.length polys)) emptyNode polys.

Definition insert (node : Node) (polys : list CSG.Polygon) : Node :=
  build (size node + S (List.length polys)) node polys.

(** Turn solid space into empty space and back. *)
Fixpoint invert (n : Node) : Node :=
  match n with
  | mkNode pl ps f b =>
      mkNode (option_map flipPlane pl) (map flipPolygon ps)
             (match b with Some b' => Some (invert b') | None => None end)
             (match f with Some f' => Some (invert f') | None => None end)
  end.

(** Remove the parts of the polygons that are inside the tree's solid. *)
Fixpoint clipPolygons (n : Node) (polys : list CSG.Polygon) : list CSG.Polygon :=
  match n with
  | mkNode None _ _ _ => polys
  | mkNode (Some plane) _ f b =>
      let parts := map (splitPolygon plane) polys in
      let fs := flat_map (fun r => coplanarFront r ++ front r) parts in
      let bs := flat_map (fun r => coplanarBack r ++ back r) parts in
      let fs' := match f with Some f' => clipPolygons f' fs | None => fs end in
      let bs' := match b with Some b' => clipPolygons b' bs | None => [] end in
      fs' ++ bs'
  end.

(** Clip every polygon of [n] against the tree [bsp]. *)
Fixpoint clipTo (n bsp : Node) : Node :=
  match n with
  | mkNode pl ps f b =>
      mkNode pl (clipPolygons bsp ps)
             (match f with Some f' => Some (clipTo f' bsp) | None => None end)
             (match b with Some b' => Some (clipTo b' bsp) | None => None end)
  end.

Fixpoint allPolygons (n : Node) : list CSG.Polygon :=
  match n with
  | mkNode _ ps f b =>
      ps ++ match f with Some f' => allPolygons f' | None => [] end
         ++ match b with Some b' => allPolygons b' | None => [] end
  end.

(** Modelled from the spec: steps 3 and 4 of section 4.3 for each
    operator. *)
Definition union (sa sb : CSG.Solid) : CSG.Solid :=
  let a := newNode (CSG.toPolygons sa) in
  let b := newNode (CSG.toPolygons sb) in
  let a := clipTo a b in
  let b := clipTo b a in
  let b := invert b in
  let b := clipTo b a in
  let b := invert b in
  let a := insert a (allPolygons b) in
  fromPolygons (allPolygons a).

Definition subtract (sa sb : CSG.Solid) : CSG.Solid :=
  let a := newNode (CSG.toPolygons sa) in
  let b := newNode (CSG.toPolygons sb) in
  let a := invert a in
  let a := clipTo a b in
  let b := clipTo b a in
  let b := invert b in
  let b := clipTo b a in
  let b := invert b in
  let a := insert a (allPolygons b) in
  let a := invert a in
  fromPolygons (allPolygons a).

Definition intersect (sa sb : CSG.Solid) : CSG.Solid :=
  let a := newNode (CSG.toPolygons sa) in
  let b := newNode (CSG.toPolygons sb) in
  let a := invert a in
  let b := clipTo b a in
  let b := invert b in
  let a := clipTo a b in
  let b := clipTo b a in
  let a := insert a (allPolygons b) in
  let a := invert a in
  fromPolygons (allPolygons a).

Definition library : CSGLibrary :=
  Build_CSGLibrary cube translate transform subtract union intersect.

End SpecCSG.

(** ** Concrete inputs *)

(** The boxes of the scenario of section 8: A is [0,2]^3, B is [1,3]^3,
    both unrotated. *)
Definition boxA : Cube :=
  mkCube "A" (CSG.mkVector 0 0 0) (CSG.mkVector 2 2 2)
         (CSG.mkVector 0 0 0) (CSG.mkVector 0 0 0).
Definition boxB : Cube :=
  mkCube "B" (CSG.mkVector 1 1 1) (CSG.mkVector 3 3 3)
         (CSG.mkVector 0 0 0) (CSG.mkVector 0 0 0).

(** A scene that holds A and B, both selected, A first. *)
Definition sceneAB : Host := mkHost [boxA; boxB] [0; 1]%nat [0; 1]%nat.

(** A box with no extent along x. *)
Definition flatBox : Cube :=
  mkCube "flat" (CSG.mkVector 0 0 0) (CSG.mkVector 0 2 2)
         (CSG.mkVector 0 0 0) (CSG.mkVector 0 0 0).

(** An unrotated box with a pivot away from the origin. *)
Definition pivotBox : Cube :=
  mkCube "pivot" (CSG.mkVector 0 0 0) (CSG.mkVector 2 2 2)
         (CSG.mkVector 8 0 8) (CSG.mkVector 0 0 0).

(** Host arithmetic for the concrete runs: the first terms of the series
    of cosine and sine, and 355/113 for pi. *)
Definition seriesMath : HostMath :=
  Build_HostMath (fun a => 1 - a * a / 2) (fun a => a - a * a * a / 6) (355 # 20340).

(** The solid A - B as the reference library builds it. *)
Definition solidAminusB : CSG.Solid :=
  let r := CSG.mkVector 1 1 1 in
  let o := CSG.mkVector 0 0 0 in
  SpecCSG.subtract (SpecCSG.translate (SpecCSG.cube o r) (CSG.mkVector 1 1 1))
                   (SpecCSG.translate (SpecCSG.cube o r) (CSG.mkVector 2 2 2)).

(** The same polygons in a library that has no [getBounds]. *)
Definition solidAminusB_noBounds : CSG.Solid :=
  CSG.mkSolid (CSG.toPolygons solidAminusB) None.

(** One of the two fragments of the face x = 2 of A - B: it spans
    y in [1,2] and z in [0,1]. *)
Definition fragmentX2 : CSG.Polygon :=
  CSG.mkPolygon [CSG.mkVector 2 1 1; CSG.mkVector 2 1 0; CSG.mkVector 2 2 0; CSG.mkVector 2 2 1]
                (CSG.mkPlane (CSG.mkVector 1 0 0) 2).

(** Modelled from the spec: the parity rule over the intersections that
    satisfy (a), (b) and (c). *)
Definition specInsideCell (csg_polygons : list CSG.Polygon) (step x y z : Q) : bool :=
  let center_point := CSG.mkVector (x + step / 2) (y + step / 2) (z + step / 2) in
  Nat.odd (List.length (filter (specCounts center_point) csg_polygons)).

(** For comparison with the Transform Builder: translation, and the
    rotations about the three axes by an angle of cosine [c] and sine [s],
    as maps on points. *)
Definition translateBy (p v : CSG.Vector) : CSG.Vector := CSG.plus v p.
Definition rotateX (c s : Q) (v : CSG.Vector) : CSG.Vector :=
  CSG.mkVector (CSG.x v) (c * CSG.y v - s * CSG.z v) (s * CSG.y v + c * CSG.z v).
Definition rotateY (c s : Q) (v : CSG.Vector) : CSG.Vector :=
  CSG.mkVector (c * CSG.x v + s * CSG.z v) (CSG.y v) (- s * CSG.x v + c * CSG.z v).
Definition rotateZ (c s : Q) (v : CSG.Vector) : CSG.Vector :=
  CSG.mkVector (c * CSG.x v - s * CSG.y v) (s * CSG.x v + c * CSG.y v) (CSG.z v).

(** Entrywise equality of matrices given as arrays. *)
Definition elements_eq (a b : list Q) : Prop := Forall2 Qeq a b.

(** A cell of the grid of [b]: its low corner is [min + (i, j, k) * step]
    and lies below [max] on every axis. *)
Definition onGrid (b : CSG.Bounds) (step : Q) (c : CSG.Vector) : Prop :=
  exists i j k : nat,
    CSG.x c == CSG.x (CSG.min b) + inject_Z (Z.of_nat i) * step
    /\ CSG.y c == CSG.y (CSG.min b) + inject_Z (Z.of_nat j) * step
    /\ CSG.z c == CSG.z (CSG.min b) + inject_Z (Z.of_nat k) * step
    /\ CSG.x c < CSG.x (CSG.max b)
    /\ CSG.y c < CSG.y (CSG.max b)
    /\ CSG.z c < CSG.z (CSG.max b).

(** The bounds are not empty on any axis. *)
Definition nonEmpty (b : CSG.Bounds) : Prop :=
  CSG.x (CSG.min b) < CSG.x (CSG.max b)
  /\ CSG.y (CSG.min b) < CSG.y (CSG.max b)
  /\ CSG.z (CSG.min b) < CSG.z (CSG.max b).

(** The solid of [flatBox], as the reference library builds it. *)
Definition flatSolid : CSG.Solid :=
  SpecCSG.translate (SpecCSG.cube (CSG.mkVector 0 0 0) (CSG.mkVector 0 1 1))
                    (CSG.mkVector 0 1 1).

(** A scene in which the flat box and B are selected. *)
Definition sceneFlatB : Host := mkHost [flatBox; boxB] [0; 1]%nat [0; 1]%nat.

(** Equality of bounds as numbers. *)
Definition bounds_eq (b b' : CSG.Bounds) : Prop :=
  vec_eq (CSG.min b) (CSG.min b') /\ vec_eq (CSG.max b) (CSG.max b').

(** The bounding box of A, and of A - B. *)
Definition boundsOfA : CSG.Bounds :=
  CSG.mkBounds (CSG.mkVector 0 0 0) (CSG.mkVector 2 2 2).

(** The polygons of A - B that do not face along x, as a solid of their
    own (an open tube). *)
Definition tubeSolid : CSG.Solid :=
  CSG.mkSolid
    (filter (fun p => Qeq_bool (CSG.x (CSG.normal (CSG.plane p))) 0)
            (CSG.toPolygons solidAminusB))
    (Some boundsOfA).

(** A voxel ends, on some axis, where or before another begins. *)
Definition endsBefore (a b : Cube) : Prop :=
  CSG.x (to a) <= CSG.x (from b)
  \/ CSG.y (to a) <= CSG.y (from b)
  \/ CSG.z (to a) <= CSG.z (from b).

(** ** Definitions for the further properties *)

(** The solid of the box A, and the polygons of the box B looked at over
    the bounds of A. *)
Definition solidA : CSG.Solid :=
  SpecCSG.translate (SpecCSG.cube (CSG.mkVector 0 0 0) (CSG.mkVector 1 1 1))
                    (CSG.mkVector 1 1 1).
Definition solidB_overA : CSG.Solid :=
  CSG.mkSolid
    (CSG.toPolygons
       (SpecCSG.translate (SpecCSG.cube (CSG.mkVector 0 0 0) (CSG.mkVector 1 1 1))
                          (CSG.mkVector 2 2 2)))
    (Some boundsOfA).
Definition solidAB_together : CSG.Solid :=
  CSG.mkSolid (CSG.toPolygons solidA ++ CSG.toPolygons solidB_overA) (Some boundsOfA).

(** A face of the box [lo, hi] along x, as the ray sees it: a plane that
    does not face along x, the far face x = hi seen from inside, or the
    near face x = lo. *)
Definition boxFace (lo hi : Q) (p : CSG.Polygon) : Prop :=
  let n := CSG.normal (CSG.plane p) in
  CSG.x n == 0
  \/ (CSG.x n == 1 /\ CSG.y n == 0 /\ CSG.z n == 0 /\ CSG.w (CSG.plane p) == hi)
  \/ (CSG.x n == -1 /\ CSG.y n == 0 /\ CSG.z n == 0 /\ CSG.w (CSG.plane p) == - lo).

Definition boxFaceb (lo hi : Q) (p : CSG.Polygon) : bool :=
  let n := CSG.normal (CSG.plane p) in
  Qeq_bool (CSG.x n) 0
  || (Qeq_bool (CSG.x n) 1 && Qeq_bool (CSG.y n) 0 && Qeq_bool (CSG.z n) 0
      && Qeq_bool (CSG.w (CSG.plane p)) hi)
  || (Qeq_bool (CSG.x n) (-1) && Qeq_bool (CSG.y n) 0 && Qeq_bool (CSG.z n) 0
      && Qeq_bool (CSG.w (CSG.plane p)) (- lo)).

(** The polygons whose normal points towards +x. *)
Definition facing (ps : list CSG.Polygon) : list CSG.Polygon :=
  filter (fun p => Qltb 0 (CSG.x (CSG.normal (CSG.plane p)))) ps.

(** A scene in which only A is selected. *)
Definition sceneOnlyA : Host := mkHost [boxA; boxB] [0; 1]%nat [0]%nat.

(** An unrotated box of side 16. *)
Definition box16 : Cube :=
  mkCube "sixteen" (CSG.mkVector 1 2 3) (CSG.mkVector 17 18 19)
         (CSG.mkVector 0 0 0) (CSG.mkVector 0 0 0).

(** * Properties *)

(** ** Comparisons *)

Lemma Qltb_lt (a b : Q) : Qltb a b = true <-> a < b.
Proof.
  unfold Qltb. rewrite negb_true_iff. split; intro H.
  - apply Qnot_le_lt. intro Hle. apply Qle_bool_iff in Hle. congruence.
  - destruct (Qle_bool b a) eqn:E; [|reflexivity].
    apply Qle_bool_iff in E. exfalso. exact (Qlt_not_le _ _ H E).
Qed.

Lemma Qltb_ge (a b : Q) : Qltb a b = false <-> b <= a.
Proof.
  unfold Qltb. rewrite negb_false_iff. apply Qle_bool_iff.
Qed.

(** ** The loops *)

Section LoopFacts.

Variable csg_polygons : list CSG.Polygon.
Variable step : Q.
Variable bounds : CSG.Bounds.

(** The loops never throw. *)
Lemma loop_z_not_thrown fuel : forall x y z cubes e,
  loop_z csg_polygons step bounds fuel x y z cubes <> Thrown e.
Proof.
  induction fuel as [|fuel IH]; intros x y z cubes e; simpl; [discriminate|].
  destruct (Qltb z _); [apply IH | discriminate].
Qed.

Lemma loop_y_not_thrown fuel : forall x y cubes e,
  loop_y csg_polygons step bounds fuel x y cubes <> Thrown e.
Proof.
  induction fuel as [|fuel IH]; intros x y cubes e; simpl; [discriminate|].
  destruct (Qltb y _); [|discriminate].
  destruct (loop_z _ _ _ fuel x y _ cubes) eqn:E; try discriminate.
  - apply IH.
  - exfalso. exact (loop_z_not_thrown _ _ _ _ _ _ E).
Qed.

Lemma loop_x_not_thrown fuel : forall x cubes e,
  loop_x csg_polygons step bounds fuel x cubes <> Thrown e.
Proof.
  induction fuel as [|fuel IH]; intros x cubes e; simpl; [discriminate|].
  destruct (Qltb x _); [|discriminate].
  destruct (loop_y _ _ _ fuel x _ cubes) eqn:E; try discriminate.
  - apply IH.
  - exfalso. exact (loop_y_not_thrown _ _ _ _ _ E).
Qed.

(** More fuel does not change a result. *)
Lemma loop_z_more_fuel fuel : forall fuel' x y z cubes r,
  (fuel <= fuel')%nat ->
  loop_z csg_polygons step bounds fuel x y z cubes = Returned r ->
  loop_z csg_polygons step bounds fuel' x y z cubes = Returned r.
Proof.
  induction fuel as [|fuel IH]; intros fuel' x y z cubes r Hle; simpl; [discriminate|].
  destruct fuel' as [|fuel']; [lia|]. simpl.
  destruct (Qltb z _); [|auto].
  apply IH. lia.
Qed.

Lemma loop_y_more_fuel fuel : forall fuel' x y cubes r,
  (fuel <= fuel')%nat ->
  loop_y csg_polygons step bounds fuel x y cubes = Returned r ->
  loop_y csg_polygons step bounds fuel' x y cubes = Returned r.
Proof.
  induction fuel as [|fuel IH]; intros fuel' x y cubes r Hle; simpl; [discriminate|].
  destruct fuel' as [|fuel']; [lia|]. simpl.
  destruct (Qltb y _); [|auto].
  destruct (loop_z _ _ _ fuel x y _ cubes) eqn:E; try discriminate.
  intro H. rewrite (loop_z_more_fuel fuel fuel' _ _ _ _ _ ltac:(lia) E).
  apply IH; [lia|exact H].
Qed.

Lemma loop_x_more_fuel fuel : forall fuel' x cubes r,
  (fuel <= fuel')%nat ->
  loop_x csg_polygons step bounds fuel x cubes = Returned r ->
  loop_x csg_polygons step bounds fuel' x cubes = Returned r.
Proof.
  induction fuel as [|fuel IH]; intros fuel' x cubes r Hle; simpl; [discriminate|].
  destruct fuel' as [|fuel']; [lia|]. simpl.
  destruct (Qltb x _); [|auto].
  destruct (loop_y _ _ _ fuel x _ cubes) eqn:E; try discriminate.
  intro H. rewrite (loop_y_more_fuel fuel fuel' _ _ _ _ ltac:(lia) E).
  apply IH; [lia|exact H].
Qed.

(** With a step that is not positive a loop whose condition holds once
    holds it for ever. *)
Lemma loop_z_diverges fuel : forall x y z cubes,
  step <= 0 -> z < CSG.z (CSG.max bounds) ->
  loop_z csg_polygons step bounds fuel x y z cubes = OutOfFuel.
Proof.
  induction fuel as [|fuel IH]; intros x y z cubes Hs Hz; simpl; [reflexivity|].
  destruct (Qltb z _) eqn:E.
  - apply IH; [exact Hs|]. apply Qle_lt_trans with z; [lra|exact Hz].
  - apply Qltb_ge in E. lra.
Qed.

Lemma loop_y_diverges fuel : forall x y cubes,
  step <= 0 -> y < CSG.y (CSG.max bounds) ->
  loop_y csg_polygons step bounds fuel x y cubes = OutOfFuel.
Proof.
  induction fuel as [|fuel IH]; intros x y cubes Hs Hy; simpl; [reflexivity|].
  destruct (Qltb y _) eqn:E.
  - destruct (loop_z _ _ _ fuel x y _ cubes) eqn:Ez; try reflexivity.
    + apply IH; [exact Hs|]. apply Qle_lt_trans with y; [lra|exact Hy].
    + exfalso. exact (loop_z_not_thrown _ _ _ _ _ _ Ez).
  - apply Qltb_ge in E. lra.
Qed.

Lemma loop_x_diverges fuel : forall x cubes,
  step <= 0 -> x < CSG.x (CSG.max bounds) ->
  loop_x csg_polygons step bounds fuel x cubes = OutOfFuel.
Proof.
  induction fuel as [|fuel IH]; intros x cubes Hs Hx; simpl; [reflexivity|].
  destruct (Qltb x _) eqn:E.
  - destruct (loop_y _ _ _ fuel x _ cubes) eqn:Ey; try reflexivity.
    + apply IH; [exact Hs|]. apply Qle_lt_trans with x; [lra|exact Hx].
    + exfalso. exact (loop_y_not_thrown _ _ _ _ _ Ey).
  - apply Qltb_ge in E. lra.
Qed.

End LoopFacts.

(** ** Counting cells *)

Lemma inject_Z_sub (a b : Z) : inject_Z (a - b) == inject_Z a - inject_Z b.
Proof.
  unfold Z.sub. rewrite inject_Z_plus, inject_Z_opp. reflexivity.
Qed.

Lemma Qceiling_minus_one (q : Q) : Qceiling (q - 1) = (Qceiling q - 1)%Z.
Proof.
  pose proof (Qle_ceiling q) as H1.
  pose proof (Qceiling_lt q) as H2.
  pose proof (Qle_ceiling (q - 1)) as H3.
  pose proof (Qceiling_lt (q - 1)) as H4.
  set (c := Qceiling q) in *. set (c' := Qceiling (q - 1)) in *.
  rewrite inject_Z_sub in H2, H4. change (inject_Z 1) with 1 in H2, H4.
  assert (Hlo : (c - 2 < c')%Z).
  { rewrite Zlt_Qlt, inject_Z_sub. change (inject_Z 2) with 2. lra. }
  assert (Hhi : (c' < c)%Z).
  { rewrite Zlt_Qlt. lra. }
  lia.
Qed.

Lemma cellCount_zero (lo hi step : Q) :
  0 < step -> hi <= lo -> cellCount lo hi step = 0%nat.
Proof.
  intros Hs Hle. unfold cellCount.
  assert (H : (hi - lo) / step <= 0).
  { apply Qle_shift_div_r; [exact Hs|]. lra. }
  apply Qceiling_resp_le in H. change (Qceiling 0) with 0%Z in H. lia.
Qed.

Lemma cellCount_succ (lo hi step : Q) :
  0 < step -> lo < hi -> cellCount lo hi step = S (cellCount (lo + step) hi step).
Proof.
  intros Hs Hlt. unfold cellCount.
  assert (Heq : (hi - (lo + step)) / step == (hi - lo) / step - 1).
  { field. lra. }
  rewrite (Qceiling_comp _ _ Heq), Qceiling_minus_one.
  assert (Hpos : (0 < Qceiling ((hi - lo) / step))%Z).
  { rewrite Zlt_Qlt. apply Qlt_le_trans with ((hi - lo) / step); [|apply Qle_ceiling].
    change (inject_Z 0) with 0. apply Qlt_shift_div_l; [exact Hs|]. lra. }
  lia.
Qed.

(** The points of an axis: the [k]-th is [lo + k * step]. *)
Lemma axisFrom_nth (n : nat) : forall lo step k q,
  nth_error (axisFrom n lo step) k = Some q ->
  q == lo + inject_Z (Z.of_nat k) * step /\ (k < n)%nat.
Proof.
  induction n as [|n IH]; intros lo step k q H; simpl in H.
  - destruct k; discriminate.
  - destruct k as [|k]; simpl in H.
    + injection H as <-. split; [|lia].
      change (inject_Z (Z.of_nat 0)) with 0. lra.
    + apply IH in H. destruct H as [Hq Hk]. split; [|lia].
      rewrite Hq. rewrite Nat2Z.inj_succ. unfold Z.succ.
      rewrite inject_Z_plus. change (inject_Z 1) with 1. lra.
Qed.

Lemma axisFrom_length (n : nat) : forall lo step, List.length (axisFrom n lo step) = n.
Proof.
  induction n as [|n IH]; intros lo step; simpl; [reflexivity|].
  now rewrite IH.
Qed.

(** Every point of the axis is below [hi]. *)
Lemma gridAxis_below (step : Q) (n : nat) : forall lo hi q,
  0 < step -> cellCount lo hi step = n ->
  In q (axisFrom n lo step) -> q < hi.
Proof.
  induction n as [|n IH]; intros lo hi q Hs Hn Hin; simpl in Hin; [contradiction|].
  destruct (Qlt_le_dec lo hi) as [Hlt|Hge].
  - destruct Hin as [<-|Hin]; [exact Hlt|].
    apply (IH (lo + step) hi q Hs); [|exact Hin].
    rewrite (cellCount_succ _ _ _ Hs Hlt) in Hn. lia.
  - rewrite (cellCount_zero _ _ _ Hs Hge) in Hn. discriminate.
Qed.

(** The axis stops only at [hi]: the point after the last one is not below. *)
Lemma gridAxis_covers (lo hi step : Q) :
  0 < step -> hi <= lo + inject_Z (Z.of_nat (cellCount lo hi step)) * step.
Proof.
  intro Hs. unfold cellCount.
  pose proof (Qle_ceiling ((hi - lo) / step)) as Hc.
  destruct (Z_lt_le_dec (Qceiling ((hi - lo) / step)) 0) as [Hneg|Hpos].
  - replace (Z.to_nat (Qceiling ((hi - lo) / step))) with 0%nat by lia.
    assert (H : (hi - lo) / step <= 0).
    { apply Qle_trans with (inject_Z (Qceiling ((hi - lo) / step))); [exact Hc|].
      change 0 with (inject_Z 0). rewrite <- Zle_Qle. lia. }
    assert (H' : hi - lo <= 0).
    { apply Qmult_le_r with (z := / step); [apply Qinv_lt_0_compat; exact Hs|].
      unfold Qdiv in H. lra. }
    change (inject_Z (Z.of_nat 0)) with 0. lra.
  - rewrite Z2Nat.id by exact Hpos.
    apply Qmult_le_r with (z := step) in Hc; [|exact Hs].
    assert (E : (hi - lo) / step * step == hi - lo) by (field; lra).
    rewrite E in Hc. lra.
Qed.

(** ** The loops scan the grid *)

Lemma fold_left_flat_map {A B C : Type} (f : A -> C -> A) (g : B -> list C) (l : list B) :
  forall a, fold_left f (flat_map g l) a = fold_left (fun acc b => fold_left f (g b) acc) l a.
Proof.
  induction l as [|b l IH]; intro a; simpl; [reflexivity|].
  now rewrite fold_left_app, IH.
Qed.

Lemma fold_left_map {A B C : Type} (f : A -> C -> A) (h : B -> C) (l : list B) :
  forall a, fold_left f (map h l) a = fold_left (fun acc b => f acc (h b)) l a.
Proof.
  induction l as [|b l IH]; intro a; simpl; [reflexivity|apply IH].
Qed.

Lemma fold_left_pointwise {A B : Type} (f g : A -> B -> A) (l : list B) :
  (forall a b, f a b = g a b) -> forall a, fold_left f l a = fold_left g l a.
Proof.
  intro H. induction l as [|b l IH]; intro a; simpl; [reflexivity|].
  now rewrite H, IH.
Qed.

Section GridFacts.

Variable csg_polygons : list CSG.Polygon.
Variable step : Q.
Variable bounds : CSG.Bounds.
Hypothesis step_positive : 0 < step.

Lemma loop_z_fold (x y : Q) (n : nat) : forall z cubes fuel,
  cellCount z (CSG.z (CSG.max bounds)) step = n -> (n < fuel)%nat ->
  loop_z csg_polygons step bounds fuel x y z cubes
  = Returned (fold_left (fun acc z' => visitCell csg_polygons step x y z' acc)
                        (axisFrom n z step) cubes).
Proof.
  induction n as [|n IH]; intros z cubes fuel Hn Hf;
    (destruct fuel as [|fuel]; [lia|]); simpl.
  - destruct (Qltb z _) eqn:E; [|reflexivity].
    apply Qltb_lt in E. rewrite (cellCount_succ _ _ _ step_positive E) in Hn. discriminate.
  - destruct (Qltb z _) eqn:E.
    + apply Qltb_lt in E. apply IH; [|lia].
      rewrite (cellCount_succ _ _ _ step_positive E) in Hn. lia.
    + apply Qltb_ge in E. rewrite (cellCount_zero _ _ _ step_positive E) in Hn. discriminate.
Qed.

Lemma loop_y_fold (x : Q) (n : nat) : forall y cubes fuel,
  cellCount y (CSG.y (CSG.max bounds)) step = n ->
  (n + S (cellCount (CSG.z (CSG.min bounds)) (CSG.z (CSG.max bounds)) step) < fuel)%nat ->
  loop_y csg_polygons step bounds fuel x y cubes
  = Returned
      (fold_left
         (fun acc y' =>
            fold_left (fun acc' z' => visitCell csg_polygons step x y' z' acc')
                      (gridAxis (CSG.z (CSG.min bounds)) (CSG.z (CSG.max bounds)) step) acc)
         (axisFrom n y step) cubes).
Proof.
  induction n as [|n IH]; intros y cubes fuel Hn Hf;
    (destruct fuel as [|fuel]; [lia|]); simpl.
  - destruct (Qltb y _) eqn:E; [|reflexivity].
    apply Qltb_lt in E. rewrite (cellCount_succ _ _ _ step_positive E) in Hn. discriminate.
  - destruct (Qltb y _) eqn:E.
    + apply Qltb_lt in E.
      rewrite (loop_z_fold x y _ _ cubes fuel eq_refl) by lia.
      apply IH; [|lia].
      rewrite (cellCount_succ _ _ _ step_positive E) in Hn. lia.
    + apply Qltb_ge in E. rewrite (cellCount_zero _ _ _ step_positive E) in Hn. discriminate.
Qed.

Lemma loop_x_fold (n : nat) : forall x cubes fuel,
  cellCount x (CSG.x (CSG.max bounds)) step = n ->
  (n + S (S (cellCount (CSG.y (CSG.min bounds)) (CSG.y (CSG.max bounds)) step
             + cellCount (CSG.z (CSG.min bounds)) (CSG.z (CSG.max bounds)) step)) < fuel)%nat ->
  loop_x csg_polygons step bounds fuel x cubes
  = Returned
      (fold_left
         (fun acc x' =>
            fold_left
              (fun acc' y' =>
                 fold_left (fun acc'' z' => visitCell csg_polygons step x' y' z' acc'')
                           (gridAxis (CSG.z (CSG.min bounds)) (CSG.z (CSG.max bounds)) step) acc')
              (gridAxis (CSG.y (CSG.min bounds)) (CSG.y (CSG.max bounds)) step) acc)
         (axisFrom n x step) cubes).
Proof.
  induction n as [|n IH]; intros x cubes fuel Hn Hf;
    (destruct fuel as [|fuel]; [lia|]); simpl.
  - destruct (Qltb x _) eqn:E; [|reflexivity].
    apply Qltb_lt in E. rewrite (cellCount_succ _ _ _ step_positive E) in Hn. discriminate.
  - destruct (Qltb x _) eqn:E.
    + apply Qltb_lt in E.
      rewrite (loop_y_fold x _ _ cubes fuel eq_refl) by lia.
      apply IH; [|lia].
      rewrite (cellCount_succ _ _ _ step_positive E) in Hn. lia.
    + apply Qltb_ge in E. rewrite (cellCount_zero _ _ _ step_positive E) in Hn. discriminate.
Qed.

(** Visiting cells in turn pushes the voxels of the inside cells, in
    the order of the visit. *)
Lemma visit_cells (cells : list CSG.Vector) : forall cubes,
  fold_left (fun acc c => visitCell csg_polygons step (CSG.x c) (CSG.y c) (CSG.z c) acc)
            cells cubes
  = cubes ++ map (fun c => newVoxel (CSG.x c) (CSG.y c) (CSG.z c) step)
                 (filter (fun c => insideCell csg_polygons step (CSG.x c) (CSG.y c) (CSG.z c))
                         cells).
Proof.
  induction cells as [|c cells IH]; intro cubes; simpl.
  - now rewrite app_nil_r.
  - rewrite IH. unfold visitCell.
    destruct (insideCell csg_polygons step (CSG.x c) (CSG.y c) (CSG.z c)); simpl.
    + now rewrite <- app_assoc.
    + reflexivity.
Qed.

(** The three loops, given enough fuel, return the voxels of the grid. *)
Lemma loop_x_grid (fuel : nat) :
  (gridFuel bounds step <= fuel)%nat ->
  loop_x csg_polygons step bounds fuel (CSG.x (CSG.min bounds)) []
  = Returned (voxelGrid csg_polygons bounds step).
Proof.
  intro Hf. unfold gridFuel in Hf.
  rewrite (loop_x_fold _ _ [] fuel eq_refl) by lia.
  f_equal. unfold voxelGrid, gridCells.
  rewrite <- (app_nil_l (map _ _)), <- visit_cells.
  rewrite fold_left_flat_map. unfold gridAxis at 3.
  apply fold_left_pointwise. intros acc x.
  rewrite fold_left_flat_map.
  apply fold_left_pointwise. intros acc' y.
  now rewrite fold_left_map.
Qed.

End GridFacts.

(** ** [csgToCubes] as a whole *)

Lemma csgToCubes_grid (csg_solid : CSG.Solid) (resolution : Q) (fuel : nat) :
  0 < resolution ->
  (gridFuel (gridBounds csg_solid) resolution <= fuel)%nat ->
  csgToCubes fuel csg_solid resolution
  = Returned (voxelGrid (CSG.toPolygons csg_solid) (gridBounds csg_solid) resolution).
Proof.
  intros Hs Hf. unfold csgToCubes. now apply loop_x_grid.
Qed.

Lemma csgToCubes_not_thrown (csg_solid : CSG.Solid) (resolution : Q) (fuel : nat) (e : Error) :
  csgToCubes fuel csg_solid resolution <> Thrown e.
Proof.
  unfold csgToCubes. apply loop_x_not_thrown.
Qed.

Lemma csgToCubes_deterministic (csg_solid : CSG.Solid) (resolution : Q)
      (fuel1 fuel2 : nat) (r1 r2 : list Cube) :
  csgToCubes fuel1 csg_solid resolution = Returned r1 ->
  csgToCubes fuel2 csg_solid resolution = Returned r2 ->
  r1 = r2.
Proof.
  unfold csgToCubes. intros H1 H2.
  apply (loop_x_more_fuel _ _ _ fuel1 (Nat.max fuel1 fuel2)) in H1; [|lia].
  apply (loop_x_more_fuel _ _ _ fuel2 (Nat.max fuel1 fuel2)) in H2; [|lia].
  congruence.
Qed.

Lemma csgToCubes_diverges (csg_solid : CSG.Solid) (resolution : Q) (fuel : nat) :
  resolution <= 0 ->
  CSG.x (CSG.min (gridBounds csg_solid)) < CSG.x (CSG.max (gridBounds csg_solid)) ->
  csgToCubes fuel csg_solid resolution = OutOfFuel.
Proof.
  intros Hs Hx. unfold csgToCubes. now apply loop_x_diverges.
Qed.

(** ** The cells of the grid *)

Lemma axisFrom_In (n : nat) (lo step q : Q) :
  In q (axisFrom n lo step) ->
  exists k : nat, q == lo + inject_Z (Z.of_nat k) * step.
Proof.
  intro Hin. apply In_nth_error in Hin. destruct Hin as [k Hk].
  exists k. exact (proj1 (axisFrom_nth _ _ _ _ _ Hk)).
Qed.

Lemma gridAxis_In (lo hi step q : Q) :
  0 < step -> In q (gridAxis lo hi step) ->
  (exists k : nat, q == lo + inject_Z (Z.of_nat k) * step) /\ q < hi.
Proof.
  intros Hs Hin. split.
  - exact (axisFrom_In _ _ _ _ Hin).
  - exact (gridAxis_below step _ lo hi q Hs eq_refl Hin).
Qed.

Lemma gridAxis_has (lo hi step : Q) (k : nat) :
  0 < step -> lo + inject_Z (Z.of_nat k) * step < hi ->
  exists q, In q (gridAxis lo hi step) /\ q == lo + inject_Z (Z.of_nat k) * step.
Proof.
  intros Hs Hk.
  pose proof (gridAxis_covers lo hi step Hs) as Hc.
  assert (Hlt : (k < cellCount lo hi step)%nat).
  { apply Nat.nle_gt. intro Hle.
    apply inj_le in Hle. rewrite Zle_Qle in Hle.
    apply Qmult_le_r with (z := step) in Hle; [|exact Hs]. lra. }
  destruct (nth_error (gridAxis lo hi step) k) as [q|] eqn:E.
  - exists q. split; [exact (nth_error_In _ _ E)|].
    exact (proj1 (axisFrom_nth _ _ _ _ _ E)).
  - apply nth_error_None in E. unfold gridAxis in E.
    rewrite axisFrom_length in E. lia.
Qed.

Lemma gridCells_In (b : CSG.Bounds) (step : Q) (c : CSG.Vector) :
  In c (gridCells b step) <->
  In (CSG.x c) (gridAxis (CSG.x (CSG.min b)) (CSG.x (CSG.max b)) step)
  /\ In (CSG.y c) (gridAxis (CSG.y (CSG.min b)) (CSG.y (CSG.max b)) step)
  /\ In (CSG.z c) (gridAxis (CSG.z (CSG.min b)) (CSG.z (CSG.max b)) step).
Proof.
  unfold gridCells. rewrite in_flat_map. split.
  - intros [x [Hx Hc]]. apply in_flat_map in Hc. destruct Hc as [y [Hy Hc]].
    apply in_map_iff in Hc. destruct Hc as [z [<- Hz]]. simpl. auto.
  - intros [Hx [Hy Hz]]. exists (CSG.x c). split; [exact Hx|].
    apply in_flat_map. exists (CSG.y c). split; [exact Hy|].
    apply in_map_iff. exists (CSG.z c). split; [|exact Hz].
    now destruct c.
Qed.

(** Every cell is on the grid of the bounds ... *)
Lemma gridCells_onGrid (b : CSG.Bounds) (step : Q) (c : CSG.Vector) :
  0 < step -> In c (gridCells b step) -> onGrid b step c.
Proof.
  intros Hs Hin. apply gridCells_In in Hin. destruct Hin as [Hx [Hy Hz]].
  apply (gridAxis_In _ _ _ _ Hs) in Hx, Hy, Hz.
  destruct Hx as [[i Hi] Hx], Hy as [[j Hj] Hy], Hz as [[k Hk] Hz].
  exists i, j, k. auto 7.
Qed.

(** ... and every grid position below [max] is a cell. *)
Lemma onGrid_gridCells (b : CSG.Bounds) (step : Q) (c : CSG.Vector) :
  0 < step -> onGrid b step c ->
  exists c', In c' (gridCells b step) /\ vec_eq c' c.
Proof.
  intros Hs [i [j [k [Hi [Hj [Hk [Hx [Hy Hz]]]]]]]].
  rewrite Hi in Hx. rewrite Hj in Hy. rewrite Hk in Hz.
  destruct (gridAxis_has _ _ _ _ Hs Hx) as [x [Hinx Ex]].
  destruct (gridAxis_has _ _ _ _ Hs Hy) as [y [Hiny Ey]].
  destruct (gridAxis_has _ _ _ _ Hs Hz) as [z [Hinz Ez]].
  exists (CSG.mkVector x y z). split.
  - apply gridCells_In. simpl. auto.
  - unfold vec_eq. simpl. rewrite Hi, Hj, Hk. auto.
Qed.

(** ** The order of the output *)

Lemma StronglySorted_app {A : Type} (R : A -> A -> Prop) (l1 l2 : list A) :
  StronglySorted R l1 -> StronglySorted R l2 ->
  (forall a b, In a l1 -> In b l2 -> R a b) ->
  StronglySorted R (l1 ++ l2).
Proof.
  intros H1 H2 H. induction H1 as [|a l1 Hs IH Hall]; simpl; [exact H2|].
  constructor.
  - apply IH. intros u v Hu Hv. apply H; [now right|exact Hv].
  - apply Forall_app. split; [exact Hall|].
    apply Forall_forall. intros v Hv. apply H; [now left|exact Hv].
Qed.

Lemma StronglySorted_flat_map {A B : Type} (R1 : A -> A -> Prop) (R : B -> B -> Prop)
      (g : A -> list B) (l : list A) :
  StronglySorted R1 l ->
  (forall a, In a l -> StronglySorted R (g a)) ->
  (forall a a' u v, R1 a a' -> In u (g a) -> In v (g a') -> R u v) ->
  StronglySorted R (flat_map g l).
Proof.
  intros Hl Hg Hcross. induction Hl as [|a l Hs IH Hall]; simpl; [constructor|].
  apply StronglySorted_app.
  - apply Hg. now left.
  - apply IH. intros a' Ha'. apply Hg. now right.
  - intros u v Hu Hv. apply in_flat_map in Hv. destruct Hv as [a' [Ha' Hv]].
    rewrite Forall_forall in Hall. exact (Hcross a a' u v (Hall a' Ha') Hu Hv).
Qed.

Lemma StronglySorted_weaken {A : Type} (R R' : A -> A -> Prop) (l : list A) :
  (forall a b, R a b -> R' a b) -> StronglySorted R l -> StronglySorted R' l.
Proof.
  intros H Hl. induction Hl as [|a l Hs IH Hall]; constructor; [exact IH|].
  eapply Forall_impl; [|exact Hall]. intros b. apply H.
Qed.

Lemma StronglySorted_map {A B : Type} (R : B -> B -> Prop) (h : A -> B) (l : list A) :
  StronglySorted (fun a a' => R (h a) (h a')) l -> StronglySorted R (map h l).
Proof.
  intro Hl. induction Hl as [|a l Hs IH Hall]; simpl; constructor; [exact IH|].
  apply Forall_map. exact Hall.
Qed.

Lemma StronglySorted_filter {A : Type} (R : A -> A -> Prop) (f : A -> bool) (l : list A) :
  StronglySorted R l -> StronglySorted R (filter f l).
Proof.
  intro Hl. induction Hl as [|a l Hs IH Hall]; simpl; [constructor|].
  destruct (f a); [|exact IH].
  constructor; [exact IH|].
  apply Forall_forall. intros u Hu. apply filter_In in Hu.
  rewrite Forall_forall in Hall. exact (Hall u (proj1 Hu)).
Qed.

Lemma axisFrom_above (step : Q) (n : nat) : forall lo q,
  0 < step -> In q (axisFrom n lo step) -> lo <= q.
Proof.
  induction n as [|n IH]; intros lo q Hs Hin; simpl in Hin; [contradiction|].
  destruct Hin as [<-|Hin]; [lra|].
  apply IH in Hin; [lra|exact Hs].
Qed.

Lemma axisFrom_sorted (step : Q) (n : nat) : forall lo,
  0 < step -> StronglySorted Qlt (axisFrom n lo step).
Proof.
  induction n as [|n IH]; intros lo Hs; simpl; constructor.
  - now apply IH.
  - apply Forall_forall. intros q Hq. apply axisFrom_above in Hq; [lra|exact Hs].
Qed.

Lemma gridCells_sorted (b : CSG.Bounds) (step : Q) :
  0 < step -> StronglySorted lexLt (gridCells b step).
Proof.
  intro Hs. unfold gridCells.
  apply StronglySorted_flat_map with (R1 := Qlt).
  - now apply axisFrom_sorted.
  - intros x _. apply StronglySorted_flat_map with (R1 := Qlt).
    + now apply axisFrom_sorted.
    + intros y _. apply StronglySorted_map.
      unfold lexLt. simpl.
      eapply StronglySorted_weaken; [|apply (axisFrom_sorted step _ _ Hs)].
      intros z z' Hz. right. right. repeat split; try reflexivity. exact Hz.
    + intros y y' u v Hy Hu Hv.
      apply in_map_iff in Hu. destruct Hu as [z [<- _]].
      apply in_map_iff in Hv. destruct Hv as [z' [<- _]].
      unfold lexLt. simpl. right. left. split; [reflexivity|exact Hy].
  - intros x x' u v Hx Hu Hv.
    apply in_flat_map in Hu. destruct Hu as [y [_ Hu]].
    apply in_map_iff in Hu. destruct Hu as [z [<- _]].
    apply in_flat_map in Hv. destruct Hv as [y' [_ Hv]].
    apply in_map_iff in Hv. destruct Hv as [z' [<- _]].
    unfold lexLt. simpl. left. exact Hx.
Qed.

Lemma voxelGrid_sorted (polygons : list CSG.Polygon) (b : CSG.Bounds) (step : Q) :
  0 < step ->
  StronglySorted (fun a a' => lexLt (from a) (from a')) (voxelGrid polygons b step).
Proof.
  intro Hs. unfold voxelGrid.
  apply StronglySorted_map. apply StronglySorted_filter.
  eapply StronglySorted_weaken; [|apply (gridCells_sorted b step Hs)].
  intros c c' H. exact H.
Qed.

(** ** Planes parallel to the axes *)

Lemma Qltb_compat (a a' b b' : Q) : a == a' -> b == b' -> Qltb a b = Qltb a' b'.
Proof.
  intros Ha Hb.
  destruct (Qltb a b) eqn:E, (Qltb a' b') eqn:E'; try reflexivity.
  - apply Qltb_lt in E. apply Qltb_ge in E'. lra.
  - apply Qltb_ge in E. apply Qltb_lt in E'. lra.
Qed.

(** Without a point-in-polygon test, what an axis-parallel polygon
    contributes depends on the x coordinate of the sample alone. *)
Lemma countsIntersection_axisParallel (c c' : CSG.Vector) (polygon : CSG.Polygon) :
  axisParallel polygon -> CSG.x c == CSG.x c' ->
  countsIntersection c polygon = countsIntersection c' polygon.
Proof.
  intros Hp Hx. unfold countsIntersection.
  set (n := CSG.normal (CSG.plane polygon)).
  set (denom := CSG.dot n ray_direction).
  destruct (Qltb (Qabs denom) EPSILON) eqn:E; [reflexivity|].
  assert (Hd : denom == CSG.x n) by (unfold denom, CSG.dot; simpl; ring).
  destruct Hp as [[Hy Hz]|Hx0]; fold n in Hy, Hz || fold n in Hx0.
  - assert (Ht : (CSG.w (CSG.plane polygon) - CSG.dot n c) / denom
                 == (CSG.w (CSG.plane polygon) - CSG.dot n c') / denom).
    { assert (Hdot : CSG.dot n c == CSG.dot n c').
      { unfold CSG.dot. rewrite Hy, Hz, Hx. ring. }
      now rewrite Hdot. }
    now rewrite (Qltb_compat _ _ _ _ (Qeq_refl EPSILON) Ht).
  - exfalso. apply Qltb_ge in E.
    assert (Hz : Qabs denom == 0) by (rewrite Hd, Hx0; reflexivity).
    rewrite Hz in E. unfold EPSILON in E. revert E. apply Qlt_not_le. reflexivity.
Qed.

Lemma intersections_axisParallel (csg_polygons : list CSG.Polygon) (c c' : CSG.Vector) :
  Forall axisParallel csg_polygons -> CSG.x c == CSG.x c' ->
  intersections csg_polygons c = intersections csg_polygons c'.
Proof.
  intros Hall Hx. unfold intersections. generalize 0%nat.
  induction Hall as [|p ps Hp Hps IH]; intro n; simpl; [reflexivity|].
  rewrite (countsIntersection_axisParallel c c' p Hp Hx). apply IH.
Qed.

Lemma insideCell_axisParallel (csg_polygons : list CSG.Polygon) (step x y z y' z' : Q) :
  Forall axisParallel csg_polygons ->
  insideCell csg_polygons step x y z = insideCell csg_polygons step x y' z'.
Proof.
  intro Hall. unfold insideCell.
  rewrite (intersections_axisParallel csg_polygons
             (CSG.mkVector (x + step / 2) (y + step / 2) (z + step / 2))
             (CSG.mkVector (x + step / 2) (y' + step / 2) (z' + step / 2)) Hall);
    [reflexivity|simpl; reflexivity].
Qed.

Lemma filter_constant {A : Type} (f : A -> bool) (b : bool) (l : list A) :
  (forall a, In a l -> f a = b) -> filter f l = if b then l else [].
Proof.
  intro H. induction l as [|a l IH]; simpl; [now destruct b|].
  rewrite (H a (or_introl eq_refl)), IH by (intros u Hu; apply H; now right).
  now destruct b.
Qed.

Lemma flat_map_const_length {A B C : Type} (h : A -> C -> B) (l : list A) (m : list C) :
  List.length (flat_map (fun a => map (h a) m) l) = (List.length l * List.length m)%nat.
Proof.
  induction l as [|a l IH]; simpl; [reflexivity|].
  now rewrite length_app, length_map, IH.
Qed.

(** Hence whole slabs of constant x are inside or outside together: the
    number of voxels is a multiple of the number of cells of a slab. *)
Lemma voxelGrid_slabs (csg_polygons : list CSG.Polygon) (b : CSG.Bounds) (step : Q) :
  Forall axisParallel csg_polygons ->
  exists k : nat,
    List.length (voxelGrid csg_polygons b step)
    = (k * (cellCount (CSG.y (CSG.min b)) (CSG.y (CSG.max b)) step
            * cellCount (CSG.z (CSG.min b)) (CSG.z (CSG.max b)) step))%nat.
Proof.
  intro Hall. unfold voxelGrid, gridCells. rewrite length_map.
  set (ys := gridAxis (CSG.y (CSG.min b)) (CSG.y (CSG.max b)) step).
  set (zs := gridAxis (CSG.z (CSG.min b)) (CSG.z (CSG.max b)) step).
  replace (cellCount (CSG.y (CSG.min b)) (CSG.y (CSG.max b)) step) with (List.length ys)
    by apply axisFrom_length.
  replace (cellCount (CSG.z (CSG.min b)) (CSG.z (CSG.max b)) step) with (List.length zs)
    by apply axisFrom_length.
  induction (gridAxis (CSG.x (CSG.min b)) (CSG.x (CSG.max b)) step) as [|x xs IH]; simpl.
  - now exists 0%nat.
  - destruct IH as [k IH]. rewrite filter_app, length_app, IH.
    rewrite (filter_constant _ (insideCell csg_polygons step x 0 0)).
    + destruct (insideCell csg_polygons step x 0 0).
      * exists (S k). rewrite flat_map_const_length. lia.
      * exists k. reflexivity.
    + intros c Hc. apply in_flat_map in Hc. destruct Hc as [y [_ Hc]].
      apply in_map_iff in Hc. destruct Hc as [z [<- _]]. simpl.
      now apply insideCell_axisParallel.
Qed.

Lemma cellCount_compat (lo lo' hi hi' step : Q) :
  lo == lo' -> hi == hi' -> cellCount lo hi step = cellCount lo' hi' step.
Proof.
  intros Hl Hh. unfold cellCount. f_equal. apply Qceiling_comp. now rewrite Hl, Hh.
Qed.

(** ** The counting rule (C1) *)

(** What the callback tests before it counts: the plane is not within
    [EPSILON] of parallel to the ray, and [t] exceeds [EPSILON].  Nothing
    else is tested. *)
Lemma countsIntersection_iff (center_point : CSG.Vector) (polygon : CSG.Polygon) :
  countsIntersection center_point polygon = true <->
  EPSILON <= Qabs (CSG.dot (CSG.normal (CSG.plane polygon)) ray_direction)
  /\ EPSILON < (CSG.w (CSG.plane polygon)
                - CSG.dot (CSG.normal (CSG.plane polygon)) center_point)
               / CSG.dot (CSG.normal (CSG.plane polygon)) ray_direction.
Proof.
  unfold countsIntersection.
  destruct (Qltb (Qabs _) EPSILON) eqn:E.
  - apply Qltb_lt in E. split; [discriminate|]. intros [H _]. lra.
  - apply Qltb_ge in E.
    destruct (Qltb EPSILON _) eqn:E'.
    + apply Qltb_lt in E'. tauto.
    + apply Qltb_ge in E'. split; [discriminate|]. intros [_ H]. lra.
Qed.

(** At the tolerance itself the plane is not skipped: a normal whose x
    component is exactly [EPSILON] is counted. *)
Example counts_at_the_tolerance :
  countsIntersection (CSG.mkVector (1 # 2) (1 # 2) (1 # 2))
                     (CSG.mkPolygon [] (CSG.mkPlane (CSG.mkVector EPSILON 0 0) 1))
  = true.
Proof.
  vm_compute. reflexivity.
Qed.

(** In particular the vertices of the polygon play no part: only its
    plane is read. *)
Lemma countsIntersection_ignores_vertices
      (center_point : CSG.Vector) (vs vs' : list CSG.Vector) (plane : CSG.Plane) :
  countsIntersection center_point (CSG.mkPolygon vs plane)
  = countsIntersection center_point (CSG.mkPolygon vs' plane).
Proof.
  reflexivity.
Qed.

(** A cell is inside exactly when the count is odd. *)
Lemma insideCell_odd (csg_polygons : list CSG.Polygon) (step x y z : Q) :
  insideCell csg_polygons step x y z
  = Nat.odd (intersections csg_polygons
               (CSG.mkVector (x + step / 2) (y + step / 2) (z + step / 2))).
Proof.
  unfold insideCell.
  set (n := intersections _ _).
  rewrite <- Nat.negb_even. f_equal.
  destruct (Nat.even n) eqn:E.
  - apply Nat.even_spec in E. destruct E as [k ->].
    rewrite Nat.mul_comm, Nat.Div0.mod_mul. reflexivity.
  - apply Nat.eqb_neq. intro H. apply Nat.Div0.mod_divides in H.
    destruct H as [k H]. rewrite H in E.
    rewrite Nat.even_mul in E. discriminate.
Qed.

(** C1 (the code departs from the claim).  The sample at the centre of the
    cell [0,1)^3 sends its ray through the plane x = 2 at (2, 1/2, 1/2).
    The fragment of the face x = 2 of A - B that spans y in [1,2] and z in
    [0,1] does not contain that point, so condition (c) fails and the
    claim counts nothing; the callback counts the intersection all the
    same.  As a result the cell [1,2) x [0,1) x [0,1), which the parity
    rule of the claim puts inside A - B, is classified outside. *)
Theorem C1_counts_hit_outside_polygon :
  let center_point := CSG.mkVector (1 # 2) (1 # 2) (1 # 2) in
  In fragmentX2 (CSG.toPolygons solidAminusB)
  /\ countsIntersection center_point fragmentX2 = true
  /\ vec_eq (intersectionPoint center_point fragmentX2) (CSG.mkVector 2 (1 # 2) (1 # 2))
  /\ insidePolygonProjection (intersectionPoint center_point fragmentX2) fragmentX2 = false
  /\ specCounts center_point fragmentX2 = false
  /\ insideCell (CSG.toPolygons solidAminusB) 1 1 0 0 = false
  /\ specInsideCell (CSG.toPolygons solidAminusB) 1 1 0 0 = true.
Proof.
  cbv zeta. split; [vm_compute; tauto|].
  split; [vm_compute; reflexivity|].
  split; [vm_compute; repeat split; reflexivity|].
  repeat (split; [vm_compute; reflexivity|]).
  vm_compute; reflexivity.
Qed.

(** ** The scenario A - B (C2) *)

Lemma axisParallelb_sound (polygon : CSG.Polygon) :
  axisParallelb polygon = true -> axisParallel polygon.
Proof.
  unfold axisParallelb, axisParallel. intro H.
  apply orb_true_iff in H. destruct H as [H|H].
  - apply andb_true_iff in H. destruct H as [Hy Hz].
    left. split; now apply Qeq_bool_iff.
  - right. now apply Qeq_bool_iff.
Qed.

Lemma forallb_axisParallel (ps : list CSG.Polygon) :
  forallb axisParallelb ps = true -> Forall axisParallel ps.
Proof.
  intro H. apply Forall_forall. intros p Hp.
  apply axisParallelb_sound. rewrite forallb_forall in H. now apply H.
Qed.

(** On a solid bounded by axis-parallel planes whose grid is that of
    [0,2]^3, or the default one, a step of 1 gives a multiple of four
    voxels. *)
Lemma axisParallel_solid_multiple_of_four (csg_solid : CSG.Solid) :
  Forall axisParallel (CSG.toPolygons csg_solid) ->
  (CSG.getBounds csg_solid = None
   \/ exists b, CSG.getBounds csg_solid = Some b /\ bounds_eq b boundsOfA) ->
  exists k : nat,
    List.length (voxelGrid (CSG.toPolygons csg_solid) (gridBounds csg_solid) 1) = (4 * k)%nat.
Proof.
  intros Hall Hb.
  destruct (voxelGrid_slabs _ (gridBounds csg_solid) 1 Hall) as [k Hk].
  rewrite Hk. unfold gridBounds.
  destruct Hb as [-> | [b [-> [[_ [Hy0 Hz0]] [_ [Hy2 Hz2]]]]]].
  - exists (64 * k)%nat.
    assert (E : cellCount 0 16 1 = 16%nat) by (vm_compute; reflexivity).
    simpl CSG.min; simpl CSG.max; simpl CSG.y; simpl CSG.z.
    rewrite E. lia.
  - exists k.
    assert (E : cellCount 0 2 1 = 2%nat) by (vm_compute; reflexivity).
    rewrite (cellCount_compat _ _ _ _ 1 Hy0 Hy2), (cellCount_compat _ _ _ _ 1 Hz0 Hz2).
    simpl CSG.min; simpl CSG.max; simpl CSG.y; simpl CSG.z.
    rewrite E. lia.
Qed.

(** C2 (the code departs from the claim).  Whatever CSG library performs
    the subtraction, as long as the solid it returns for A - B is bounded
    by axis-parallel planes (clipping two unrotated boxes creates no other
    plane) and its bounds are those of [0,2]^3 (or the library has no
    [getBounds] and the default range is used), the pipeline returns a
    number of voxels that is a multiple of four: never the seven voxels of
    the claim. *)
Theorem C2_subtract_scenario_never_seven
        {math : HostMath} {lib : CSGLibrary} (host : Host) (sA sB : CSG.Solid) :
  deref host 0 = Some boxA ->
  deref host 1 = Some boxB ->
  cubeToCSG true boxA = Returned sA ->
  cubeToCSG true boxB = Returned sB ->
  Forall axisParallel (CSG.toPolygons (subtract sA sB)) ->
  (CSG.getBounds (subtract sA sB) = None
   \/ exists b, CSG.getBounds (subtract sA sB) = Some b /\ bounds_eq b boundsOfA) ->
  exists (fuel : nat) (cubes : list Cube) (k : nat),
    fst (executeCSGOperation true fuel host "subtract" 1) = Returned (Some cubes)
    /\ List.length cubes = (4 * k)%nat
    /\ List.length cubes <> 7%nat.
Proof.
  intros HA HB HsA HsB Hall Hb.
  destruct (axisParallel_solid_multiple_of_four _ Hall Hb) as [k Hk].
  exists (gridFuel (gridBounds (subtract sA sB)) 1).
  exists (voxelGrid (CSG.toPolygons (subtract sA sB)) (gridBounds (subtract sA sB)) 1).
  exists k.
  split; [|split; [exact Hk|lia]].
  unfold executeCSGOperation. rewrite HA, HB. unfold callCubeToCSG.
  rewrite HsA, HsB. simpl.
  rewrite csgToCubes_grid; [reflexivity|reflexivity|lia].
Qed.

(** The hypotheses of C2 hold of the reference library on the scene that
    holds A and B. *)
Lemma C2_subtract_scenario_witness :
  exists (fuel : nat) (cubes : list Cube) (k : nat),
    fst (executeCSGOperation (math := seriesMath) (lib := SpecCSG.library)
                             true fuel sceneAB "subtract" 1)
    = Returned (Some cubes)
    /\ List.length cubes = (4 * k)%nat
    /\ List.length cubes <> 7%nat.
Proof.
  apply (C2_subtract_scenario_never_seven (math := seriesMath) (lib := SpecCSG.library)
           sceneAB
           (SpecCSG.translate (SpecCSG.cube (CSG.mkVector 0 0 0)
                                            (CSG.mkVector ((2 - 0) / 2) ((2 - 0) / 2) ((2 - 0) / 2)))
                              (CSG.mkVector ((0 + 2) / 2) ((0 + 2) / 2) ((0 + 2) / 2)))
           (SpecCSG.translate (SpecCSG.cube (CSG.mkVector 0 0 0)
                                            (CSG.mkVector ((3 - 1) / 2) ((3 - 1) / 2) ((3 - 1) / 2)))
                              (CSG.mkVector ((1 + 3) / 2) ((1 + 3) / 2) ((1 + 3) / 2)))).
  - reflexivity.
  - reflexivity.
  - reflexivity.
  - reflexivity.
  - apply forallb_axisParallel. vm_compute. reflexivity.
  - right. exists boundsOfA. split.
    + vm_compute. reflexivity.
    + unfold bounds_eq, vec_eq. simpl. repeat split; reflexivity.
Defined.

(** On that scene the pipeline returns the four cells of the slab
    0 <= x < 1, while the parity rule with the three conditions of the
    claim puts seven of the eight cells of [0,2]^3 inside. *)
Example scenario_returns_four_voxels :
  fst (executeCSGOperation (math := seriesMath) (lib := SpecCSG.library)
                           true 9 sceneAB "subtract" 1)
  = Returned (Some [newVoxel 0 0 0 1; newVoxel 0 0 (0 + 1) 1;
                    newVoxel 0 (0 + 1) 0 1; newVoxel 0 (0 + 1) (0 + 1) 1])
  /\ List.length (filter (fun c => specInsideCell (CSG.toPolygons solidAminusB) 1
                                                  (CSG.x c) (CSG.y c) (CSG.z c))
                         (gridCells boundsOfA 1)) = 7%nat.
Proof.
  split; vm_compute; reflexivity.
Qed.

(** ** Degenerate boxes (C3) *)

Section ConverterFacts.

Context {math : HostMath} {lib : CSGLibrary}.

(** The only exception of the converter is the one about three.js. *)
Lemma cubeToCSG_thrown (three_defined : bool) (cube : Cube) (e : Error) :
  cubeToCSG three_defined cube = Thrown e -> e = ThreeMissing /\ three_defined = false.
Proof.
  unfold cubeToCSG. destruct three_defined; simpl; [discriminate|].
  intro H. injection H as <-. auto.
Qed.

Lemma callCubeToCSG_thrown (three_defined : bool) (el : option Cube) (e : Error) :
  callCubeToCSG three_defined el = Thrown e -> e = ThreeMissing \/ e = TypeError.
Proof.
  destruct el as [cube|]; simpl.
  - intro H. left. exact (proj1 (cubeToCSG_thrown _ _ _ H)).
  - destruct three_defined; simpl; intro H; injection H as <-; auto.
Qed.

Lemma callCubeToCSG_not_OutOfFuel (three_defined : bool) (el : option Cube) :
  callCubeToCSG three_defined el <> OutOfFuel.
Proof.
  destruct el as [cube|]; simpl.
  - unfold cubeToCSG. destruct three_defined; discriminate.
  - destruct three_defined; discriminate.
Qed.

(** What the pipeline can throw. *)
Lemma executeCSGOperation_thrown (three_defined : bool) (fuel : nat) (host : Host)
      (mode : string) (resolution : Q) (e : Error) :
  fst (executeCSGOperation three_defined fuel host mode resolution) = Thrown e ->
  e = ThreeMissing \/ e = TypeError.
Proof.
  unfold executeCSGOperation.
  destruct (callCubeToCSG three_defined (deref host 0)) as [sA|e1|] eqn:EA; simpl.
  - destruct (callCubeToCSG three_defined (deref host 1)) as [sB|e2|] eqn:EB; simpl.
    + destruct (String.eqb mode "subtract"); simpl; [|discriminate].
      destruct (csgToCubes fuel (subtract sA sB) resolution) as [cubes|e3|] eqn:EC;
        simpl; try discriminate.
      exfalso. exact (csgToCubes_not_thrown _ _ _ _ EC).
    + intro H. injection H as <-. exact (callCubeToCSG_thrown _ _ _ EB).
    + discriminate.
  - intro H. injection H as <-. exact (callCubeToCSG_thrown _ _ _ EA).
  - discriminate.
Qed.

(** C3 (amended).  For every box, whatever its half-extents, the
    conversion checks no extent and never fails with
    [DegenerateGeometry]: when three.js is available it returns the
    library's cube of radius (to - from) / 2 about the origin, translated
    to the midpoint of [from] and [to], and transformed by the box's
    matrix when some rotation angle is not zero; without three.js it
    throws the error about three.js.  Nor does the pipeline as a whole
    ever fail with [DegenerateGeometry]. *)
Theorem C3_conversion_checks_no_extent (cube : Cube) :
  cubeToCSG true cube
  = Returned
      (let radius := CSG.mkVector ((CSG.x (to cube) - CSG.x (from cube)) / 2)
                                  ((CSG.y (to cube) - CSG.y (from cube)) / 2)
                                  ((CSG.z (to cube) - CSG.z (from cube)) / 2) in
       let center := CSG.mkVector ((CSG.x (from cube) + CSG.x (to cube)) / 2)
                                  ((CSG.y (from cube) + CSG.y (to cube)) / 2)
                                  ((CSG.z (from cube) + CSG.z (to cube)) / 2) in
       let moved := translate (CSG_cube (CSG.mkVector 0 0 0) radius) center in
       if someRotation cube then transform moved (getTransformationMatrix cube) else moved)
  /\ cubeToCSG false cube = Thrown ThreeMissing
  /\ (forall three_defined, cubeToCSG three_defined cube <> Thrown DegenerateGeometry)
  /\ (forall three_defined fuel host mode resolution,
        fst (executeCSGOperation three_defined fuel host mode resolution)
        <> Thrown DegenerateGeometry).
Proof.
  split; [reflexivity|]. split; [reflexivity|]. split.
  - intros three_defined H. apply cubeToCSG_thrown in H. destruct H; discriminate.
  - intros three_defined fuel host mode resolution H.
    apply executeCSGOperation_thrown in H. destruct H; discriminate.
Qed.

End ConverterFacts.

(** C3 (counterexample).  The box from (0,0,0) to (0,2,2) has a zero
    half-extent along x.  Its conversion returns a solid, and the pipeline
    goes on to subtract B from it and to voxelise the result (into 18
    voxels with the reference library). *)
Lemma C3_flat_box_is_converted :
  (CSG.x (to flatBox) - CSG.x (from flatBox)) / 2 <= 0
  /\ cubeToCSG (math := seriesMath) (lib := SpecCSG.library) true flatBox
     = Returned flatSolid
  /\ cubeToCSG (math := seriesMath) (lib := SpecCSG.library) true flatBox
     <> Thrown DegenerateGeometry
  /\ (exists cubes,
        fst (executeCSGOperation (math := seriesMath) (lib := SpecCSG.library)
                                 true 11 sceneFlatB "subtract" 1)
        = Returned (Some cubes)
        /\ List.length cubes = 18%nat).
Proof.
  split; [vm_compute; discriminate|].
  split; [vm_compute; reflexivity|].
  split; [vm_compute; discriminate|].
  eexists. split; vm_compute; reflexivity.
Qed.

(** ** Resolutions that are not positive (C4, C10) *)

(** C4 (amended).  For every solid and every resolution <= 0 the
    voxeliser validates nothing and raises no error, [InvalidResolution]
    or other: when the x range of its bounds is empty it returns the empty
    list of voxels, and otherwise it does not return.  In no case does it
    return a voxel. *)
Theorem C4_nonpositive_resolution_not_validated (csg_solid : CSG.Solid) (resolution : Q) :
  resolution <= 0 ->
  (forall fuel e, csgToCubes fuel csg_solid resolution <> Thrown e)
  /\ (CSG.x (CSG.min (gridBounds csg_solid)) < CSG.x (CSG.max (gridBounds csg_solid)) ->
      forall fuel, csgToCubes fuel csg_solid resolution = OutOfFuel)
  /\ (CSG.x (CSG.max (gridBounds csg_solid)) <= CSG.x (CSG.min (gridBounds csg_solid)) ->
      forall fuel, csgToCubes (S fuel) csg_solid resolution = Returned [])
  /\ (forall fuel cubes, csgToCubes fuel csg_solid resolution = Returned cubes -> cubes = []).
Proof.
  intro Hr.
  assert (Hempty : CSG.x (CSG.max (gridBounds csg_solid))
                   <= CSG.x (CSG.min (gridBounds csg_solid)) ->
                   forall fuel, csgToCubes (S fuel) csg_solid resolution = Returned []).
  { intros Hle fuel. unfold csgToCubes. simpl.
    apply Qltb_ge in Hle. now rewrite Hle. }
  split; [intros fuel e; apply csgToCubes_not_thrown|].
  split; [intros Hlt fuel; now apply csgToCubes_diverges|].
  split; [exact Hempty|].
  intros fuel cubes H.
  destruct (Qlt_le_dec (CSG.x (CSG.min (gridBounds csg_solid)))
                       (CSG.x (CSG.max (gridBounds csg_solid)))) as [Hlt|Hle].
  - rewrite (csgToCubes_diverges _ _ fuel Hr Hlt) in H. discriminate.
  - pose proof (Hempty Hle 0%nat) as H0.
    symmetry. exact (csgToCubes_deterministic _ _ _ _ _ _ H0 H).
Qed.

(** C4 at the resolution 0, on A - B (which is never returned from) and
    on the flat solid (whose x range is empty). *)
Lemma C4_nonpositive_resolution_witness :
  (forall fuel, csgToCubes fuel solidAminusB 0 = OutOfFuel)
  /\ (forall fuel, csgToCubes (S fuel) flatSolid 0 = Returned []).
Proof.
  split.
  - apply (proj1 (proj2 (C4_nonpositive_resolution_not_validated solidAminusB 0
                           ltac:(vm_compute; discriminate)))).
    vm_compute. reflexivity.
  - apply (proj1 (proj2 (proj2 (C4_nonpositive_resolution_not_validated flatSolid 0
                                  ltac:(vm_compute; discriminate))))).
    vm_compute. discriminate.
Defined.

(** C4 (counterexample).  At the resolution 0 the voxeliser returns
    normally on the flat solid, and on A - B it throws nothing, whatever
    the fuel. *)
Lemma C4_resolution_zero_is_not_rejected :
  csgToCubes 1 flatSolid 0 = Returned []
  /\ ~ (exists fuel, csgToCubes fuel solidAminusB 0 = Thrown InvalidResolution).
Proof.
  split; [vm_compute; reflexivity|].
  intros [fuel H]. exact (csgToCubes_not_thrown _ _ _ _ H).
Qed.

(** ** The Transform Builder (C5, C6) *)

(** Unfold the matrices down to their entries, and no further. *)
Ltac matrix_unfold :=
  cbv beta iota zeta delta
      [getTransformationMatrix transformationMatrix
       THREE.elements THREE.multiply THREE.multiplyMatrices
       THREE.makeTranslation THREE.makeRotationX THREE.makeRotationY THREE.makeRotationZ
       THREE.identity
       THREE.n11 THREE.n12 THREE.n13 THREE.n14 THREE.n21 THREE.n22 THREE.n23 THREE.n24
       THREE.n31 THREE.n32 THREE.n33 THREE.n34 THREE.n41 THREE.n42 THREE.n43 THREE.n44
       SpecCSG.applyMatrix SpecCSG.negated translateBy rotateX rotateY rotateZ
       CSG.plus CSG.x CSG.y CSG.z origin rotation nth vec_eq elements_eq].

(** Name the six trigonometric values, so that they are atoms. *)
Ltac trig_atoms rx ry rz :=
  generalize (cos (THREE.Math.degToRad rx)) (sin (THREE.Math.degToRad rx))
             (cos (THREE.Math.degToRad ry)) (sin (THREE.Math.degToRad ry))
             (cos (THREE.Math.degToRad rz)) (sin (THREE.Math.degToRad rz));
  intros ?cx ?sx ?cy ?sy ?cz ?sz.

(** C5.  For every pivot p and rotation angles (rx, ry, rz) in degrees the
    Transform Builder returns the matrix T(p) . Rz(rz) . Ry(ry) . Rx(rx) .
    T(-p), however the product is bracketed; applied to a point it moves
    the pivot to the origin, rotates about X, then about Y, then about Z,
    and moves the pivot back. *)
Theorem C5_transformation_matrix_formula {math : HostMath} (cube : Cube) :
  let p := origin cube in
  let r := rotation cube in
  let T := THREE.makeTranslation (CSG.x p) (CSG.y p) (CSG.z p) in
  let T' := THREE.makeTranslation (- CSG.x p) (- CSG.y p) (- CSG.z p) in
  let ax := THREE.Math.degToRad (CSG.x r) in
  let ay := THREE.Math.degToRad (CSG.y r) in
  let az := THREE.Math.degToRad (CSG.z r) in
  let Rx := THREE.makeRotationX ax in
  let Ry := THREE.makeRotationY ay in
  let Rz := THREE.makeRotationZ az in
  elements_eq (getTransformationMatrix cube)
              (THREE.elements
                 (THREE.multiplyMatrices T
                    (THREE.multiplyMatrices Rz
                       (THREE.multiplyMatrices Ry (THREE.multiplyMatrices Rx T')))))
  /\ elements_eq (getTransformationMatrix cube)
                 (THREE.elements
                    (THREE.multiplyMatrices
                       (THREE.multiplyMatrices
                          (THREE.multiplyMatrices (THREE.multiplyMatrices T Rz) Ry) Rx) T'))
  /\ forall v,
       vec_eq (SpecCSG.applyMatrix (getTransformationMatrix cube) v)
              (translateBy p
                 (rotateZ (cos az) (sin az)
                    (rotateY (cos ay) (sin ay)
                       (rotateX (cos ax) (sin ax)
                                (translateBy (SpecCSG.negated p) v))))).
Proof.
  intros p r T T' ax ay az Rx Ry Rz.
  subst p r T T' Rx Ry Rz ax ay az.
  destruct cube as [nm fr t0 [px py pz] [rx ry rz]].
  split; [|split].
  - matrix_unfold. trig_atoms rx ry rz. repeat (constructor; [ring|]). constructor.
  - matrix_unfold. trig_atoms rx ry rz. repeat (constructor; [ring|]). constructor.
  - intros [vx vy vz]. matrix_unfold. trig_atoms rx ry rz. repeat split; ring.
Qed.

Lemma zero_angle {math : HostMath} {zero : HostMathZero math} (a : Q) :
  a == 0 -> cos (THREE.Math.degToRad a) == 1 /\ sin (THREE.Math.degToRad a) == 0.
Proof.
  intro Ha.
  assert (H : THREE.Math.degToRad a == 0)
    by (unfold THREE.Math.degToRad; rewrite Ha; ring).
  split.
  - rewrite (cos_compat _ _ H). apply cos_0.
  - rewrite (sin_compat _ _ H). apply sin_0.
Qed.

Lemma Forall2_map_self {A : Type} (R : A -> A -> Prop) (f : A -> A) (l : list A) :
  (forall a, R (f a) a) -> Forall2 R (map f l) l.
Proof.
  intro H. induction l as [|a l IH]; simpl; constructor; auto.
Qed.

(** C6.  For all-zero rotation angles and any pivot the Transform
    Builder's matrix is the identity: applying it to the vertices of a
    solid gives the same vertices, which is what [cubeToCSG] relies on
    when it skips the transform for such a box. *)
Theorem C6_zero_rotation_gives_identity
        {math : HostMath} {zero : HostMathZero math} {lib : CSGLibrary} (cube : Cube) :
  CSG.x (rotation cube) == 0 ->
  CSG.y (rotation cube) == 0 ->
  CSG.z (rotation cube) == 0 ->
  elements_eq (getTransformationMatrix cube) (THREE.elements THREE.identity)
  /\ (forall csg_solid,
        Forall2 vec_eq
                (map (SpecCSG.applyMatrix (getTransformationMatrix cube))
                     (solidVertices csg_solid))
                (solidVertices csg_solid))
  /\ someRotation cube = false
  /\ cubeToCSG true cube
     = Returned
         (translate
            (CSG_cube (CSG.mkVector 0 0 0)
                      (CSG.mkVector ((CSG.x (to cube) - CSG.x (from cube)) / 2)
                                    ((CSG.y (to cube) - CSG.y (from cube)) / 2)
                                    ((CSG.z (to cube) - CSG.z (from cube)) / 2)))
            (CSG.mkVector ((CSG.x (from cube) + CSG.x (to cube)) / 2)
                          ((CSG.y (from cube) + CSG.y (to cube)) / 2)
                          ((CSG.z (from cube) + CSG.z (to cube)) / 2))).
Proof.
  intros Hx Hy Hz.
  assert (Hno : someRotation cube = false).
  { unfold someRotation, Qneqb.
    apply Qeq_bool_iff in Hx, Hy, Hz. now rewrite Hx, Hy, Hz. }
  destruct (zero_angle _ Hx) as [Hcx Hsx].
  destruct (zero_angle _ Hy) as [Hcy Hsy].
  destruct (zero_angle _ Hz) as [Hcz Hsz].
  split; [|split; [|split; [exact Hno|]]].
  - clear Hno. destruct cube as [nm fr t0 [px py pz] [rx ry rz]].
    cbv beta iota delta [rotation CSG.x CSG.y CSG.z] in Hcx, Hsx, Hcy, Hsy, Hcz, Hsz.
    matrix_unfold. revert Hcx Hsx Hcy Hsy Hcz Hsz. trig_atoms rx ry rz.
    intros Hcx Hsx Hcy Hsy Hcz Hsz.
    repeat (constructor; [ring_simplify; rewrite ?Hcx, ?Hsx, ?Hcy, ?Hsy, ?Hcz, ?Hsz; ring|]).
    constructor.
  - clear Hno. intro csg_solid. apply Forall2_map_self. intros [vx vy vz].
    destruct cube as [nm fr t0 [px py pz] [rx ry rz]].
    cbv beta iota delta [rotation CSG.x CSG.y CSG.z] in Hcx, Hsx, Hcy, Hsy, Hcz, Hsz.
    matrix_unfold. revert Hcx Hsx Hcy Hsy Hcz Hsz. trig_atoms rx ry rz.
    intros Hcx Hsx Hcy Hsy Hcz Hsz.
    repeat split; ring_simplify; rewrite ?Hcx, ?Hsx, ?Hcy, ?Hsy, ?Hcz, ?Hsz; ring.
  - unfold cubeToCSG. rewrite Hno. reflexivity.
Qed.

(** The series used for the concrete runs take the right values at zero. *)
Lemma seriesMath_zero : HostMathZero seriesMath.
Proof.
  constructor; simpl.
  - intros a b H. now rewrite H.
  - intros a b H. now rewrite H.
  - reflexivity.
  - reflexivity.
Qed.

(** C6 on the unrotated box with its pivot at (8, 0, 8). *)
Lemma C6_zero_rotation_witness :
  elements_eq (getTransformationMatrix (math := seriesMath) pivotBox)
              (THREE.elements THREE.identity)
  /\ someRotation pivotBox = false.
Proof.
  pose proof (C6_zero_rotation_gives_identity
                (math := seriesMath) (zero := seriesMath_zero) (lib := SpecCSG.library)
                pivotBox ltac:(reflexivity) ltac:(reflexivity) ltac:(reflexivity)) as H.
  exact (conj (proj1 H) (proj1 (proj2 (proj2 H)))).
Defined.

(** ** The sample grid (C7) *)

Lemma voxelGrid_In (polygons : list CSG.Polygon) (b : CSG.Bounds) (step : Q) (cube : Cube) :
  In cube (voxelGrid polygons b step) <->
  exists c, In c (gridCells b step)
            /\ insideCell polygons step (CSG.x c) (CSG.y c) (CSG.z c) = true
            /\ cube = newVoxel (CSG.x c) (CSG.y c) (CSG.z c) step.
Proof.
  unfold voxelGrid. rewrite in_map_iff. split.
  - intros [c [<- Hc]]. apply filter_In in Hc. exists c. tauto.
  - intros [c [Hin [Hi ->]]]. exists c. split; [reflexivity|].
    apply filter_In. tauto.
Qed.

(** The earlier draft scans the default range, whatever the solid. *)
Lemma Draft_csgToCubes_grid (csg_solid : CSG.Solid) (step : Q) :
  0 < step ->
  Draft.csgToCubes true (gridFuel defaultBounds step) csg_solid step
  = Returned (voxelGrid (CSG.toPolygons csg_solid) defaultBounds step).
Proof.
  intro Hs. unfold Draft.csgToCubes. simpl negb. cbv iota.
  now apply loop_x_grid.
Qed.

(** C7 (amended).  For every solid and every positive step, the sample
    grid is derived from the bounds that the solid's [getBounds] returns
    when the library provides it, and from the default range 0..16 on
    every axis when it does not: the voxeliser returns the voxels of the
    cells whose low corner is min + (i, j, k) * step, for all i, j, k with
    that corner below max on every axis, each cell being sampled at its
    centre. *)
Theorem C7_grid_from_getBounds_or_default (csg_solid : CSG.Solid) (step : Q) :
  0 < step ->
  let b := gridBounds csg_solid in
  let polygons := CSG.toPolygons csg_solid in
  match CSG.getBounds csg_solid with Some b' => b = b' | None => b = defaultBounds end
  /\ (exists fuel, csgToCubes fuel csg_solid step = Returned (voxelGrid polygons b step))
  /\ (forall c, In c (gridCells b step) -> onGrid b step c)
  /\ (forall c, onGrid b step c -> exists c', In c' (gridCells b step) /\ vec_eq c' c)
  /\ (forall cube,
        In cube (voxelGrid polygons b step) <->
        exists c, In c (gridCells b step)
                  /\ intersections polygons
                       (CSG.mkVector (CSG.x c + step / 2) (CSG.y c + step / 2)
                                     (CSG.z c + step / 2)) mod 2 <> 0%nat
                  /\ cube = newVoxel (CSG.x c) (CSG.y c) (CSG.z c) step).
Proof.
  intros Hs b polygons.
  split; [unfold b, gridBounds; now destruct (CSG.getBounds csg_solid)|].
  split; [exists (gridFuel b step); now apply csgToCubes_grid|].
  split; [intros c; now apply gridCells_onGrid|].
  split; [intros c; now apply onGrid_gridCells|].
  intro cube. rewrite voxelGrid_In.
  split; intros [c [Hin [Hi Hc]]]; exists c; (split; [exact Hin|split; [|exact Hc]]).
  - unfold insideCell in Hi. apply negb_true_iff, Nat.eqb_neq in Hi. exact Hi.
  - unfold insideCell. apply negb_true_iff, Nat.eqb_neq. exact Hi.
Qed.

(** C7 on A - B with the step 1. *)
Lemma C7_grid_witness :
  exists fuel,
    csgToCubes fuel solidAminusB 1
    = Returned (voxelGrid (CSG.toPolygons solidAminusB) (gridBounds solidAminusB) 1).
Proof.
  pose proof (C7_grid_from_getBounds_or_default solidAminusB 1) as H.
  cbv zeta in H.
  destruct (H ltac:(vm_compute; reflexivity)) as [_ [Hrun _]].
  exact Hrun.
Defined.

(** C7 (counterexample).  The vertices of A - B span [0,2]^3.  When the
    library gives the solid no [getBounds], the voxeliser scans the fixed
    range 0..16 and returns 256 voxels, the last of them at (0, 15, 15),
    far outside the solid; the earlier draft does so even when [getBounds]
    is there. *)
Lemma C7_default_range_is_used :
  boundingBox (solidVertices solidAminusB_noBounds) = Some boundsOfA
  /\ (exists cubes,
        csgToCubes 60 solidAminusB_noBounds 1 = Returned cubes
        /\ List.length cubes = 256%nat
        /\ nth_error cubes 255 = Some (newVoxel 0 15 15 1))
  /\ CSG.getBounds solidAminusB = Some boundsOfA
  /\ (exists cubes,
        Draft.csgToCubes true 60 solidAminusB 1 = Returned cubes
        /\ List.length cubes = 256%nat
        /\ nth_error cubes 255 = Some (newVoxel 0 15 15 1)).
Proof.
  split; [vm_compute; reflexivity|].
  split; [eexists; split; [vm_compute; reflexivity|split; vm_compute; reflexivity]|].
  split; [vm_compute; reflexivity|].
  eexists; split; [vm_compute; reflexivity|split; vm_compute; reflexivity].
Qed.

(** ** Determinism and order (C8) *)

(** C8.  For every solid and positive step (the ray direction is the
    constant +X), the voxeliser returns one and the same sequence of
    voxels whenever it is run: every run that returns gives that sequence,
    a run can only differ by not having finished, and the sequence is in
    strictly increasing lexicographic order of (x, y, z). *)
Theorem C8_voxelizer_deterministic_lexicographic (csg_solid : CSG.Solid) (step : Q) :
  0 < step ->
  exists out : list Cube,
    (exists fuel, csgToCubes fuel csg_solid step = Returned out)
    /\ (forall fuel r, csgToCubes fuel csg_solid step = Returned r -> r = out)
    /\ (forall fuel, csgToCubes fuel csg_solid step = Returned out
                     \/ csgToCubes fuel csg_solid step = OutOfFuel)
    /\ StronglySorted (fun a a' => lexLt (from a) (from a')) out.
Proof.
  intro Hs.
  set (out := voxelGrid (CSG.toPolygons csg_solid) (gridBounds csg_solid) step).
  assert (Hrun : csgToCubes (gridFuel (gridBounds csg_solid) step) csg_solid step
                 = Returned out) by now apply csgToCubes_grid.
  assert (Hdet : forall fuel r, csgToCubes fuel csg_solid step = Returned r -> r = out).
  { intros fuel r H. exact (csgToCubes_deterministic _ _ _ _ _ _ H Hrun). }
  exists out. split; [now exists (gridFuel (gridBounds csg_solid) step)|].
  split; [exact Hdet|]. split.
  - intro fuel. destruct (csgToCubes fuel csg_solid step) as [r|e|] eqn:E.
    + left. f_equal. now apply (Hdet fuel).
    + exfalso. exact (csgToCubes_not_thrown _ _ _ _ E).
    + now right.
  - now apply voxelGrid_sorted.
Qed.

(** C8 on A - B with the step 1. *)
Lemma C8_voxelizer_witness :
  exists out : list Cube,
    (exists fuel, csgToCubes fuel solidAminusB 1 = Returned out)
    /\ (forall fuel r, csgToCubes fuel solidAminusB 1 = Returned r -> r = out)
    /\ (forall fuel, csgToCubes fuel solidAminusB 1 = Returned out
                     \/ csgToCubes fuel solidAminusB 1 = OutOfFuel)
    /\ StronglySorted (fun a a' => lexLt (from a) (from a')) out.
Proof.
  apply (C8_voxelizer_deterministic_lexicographic solidAminusB 1).
  vm_compute. reflexivity.
Defined.

(** ** Failure and the scene (C9) *)

Section HostCallFacts.

Context {math : HostMath} {lib : CSGLibrary}.

(** As long as the conversion, the subtraction or the voxelisation has
    not returned the voxels, no call touches the scene: the only call
    made is the first status message. *)
Lemma no_scene_call_before_the_voxels
      (three_defined : bool) (workshop_dialog : option string)
      (fuel : nat) (host : Host) (mode : string) (resolution : Q) :
  (forall cubes,
     fst (executeCSGOperation three_defined fuel host mode resolution)
     <> Returned (Some cubes)) ->
  snd (HostCalls.executeCSGOperation three_defined workshop_dialog
                                     fuel host mode resolution)
  = [HostCalls.Blockbench_setStatusBarText (HostCalls.Executing mode)].
Proof.
  unfold executeCSGOperation, HostCalls.executeCSGOperation. intro H.
  destruct (callCubeToCSG three_defined (deref host 0)) as [sA|e|]; simpl in *;
    try reflexivity.
  destruct (callCubeToCSG three_defined (deref host 1)) as [sB|e|]; simpl in *;
    try reflexivity.
  destruct (String.eqb mode "subtract"); simpl in *; try reflexivity.
  destruct (csgToCubes fuel (subtract sA sB) resolution) as [cubes|e|]; simpl in *;
    try reflexivity.
  exfalso. exact (H cubes eq_refl).
Qed.

(** With the dialog assigned, as the earlier draft does, the function
    would go on to hide it and to report the number of voxels. *)
Lemma with_the_dialog_assigned
      (three_defined : bool) (dialog : string)
      (fuel : nat) (host : Host) (mode : string) (resolution : Q) (cubes : list Cube) :
  fst (executeCSGOperation three_defined fuel host mode resolution)
  = Returned (Some cubes) ->
  HostCalls.executeCSGOperation three_defined (Some dialog) fuel host mode resolution
  = (Returned tt,
     [HostCalls.Blockbench_setStatusBarText (HostCalls.Executing mode);
      HostCalls.Undo_initEdit (selected host)]
     ++ map HostCalls.remove (selected host)
     ++ map (fun cube => HostCalls.add cube (hd_error (selected host))) cubes
     ++ [HostCalls.Undo_finishEdit mode; HostCalls.Canvas_updateView;
         HostCalls.workshop_dialog_hide;
         HostCalls.Blockbench_setStatusBarText (HostCalls.Done (List.length cubes))]).
Proof.
  unfold executeCSGOperation, HostCalls.executeCSGOperation.
  destruct (callCubeToCSG three_defined (deref host 0)) as [sA|e|]; simpl;
    try discriminate.
  destruct (callCubeToCSG three_defined (deref host 1)) as [sB|e|]; simpl;
    try discriminate.
  destruct (String.eqb mode "subtract"); simpl; try discriminate.
  destruct (csgToCubes fuel (subtract sA sB) resolution) as [new_cubes|e|]; simpl;
    try discriminate.
  intro H. injection H as <-. f_equal. f_equal. f_equal.
  rewrite <- !app_assoc. reflexivity.
Qed.


End HostCallFacts.


(** ** Termination (C10) *)

(** C10.  For every solid whose grid bounds are not empty on any axis, the
    voxelisation loops called with a step <= 0 never finish, whatever the
    fuel: the loop variable never passes the upper bound.  With a positive
    step they do finish.  The loops of the earlier draft, over its fixed
    range, behave alike. *)
Theorem C10_terminates_only_for_positive_step (csg_solid : CSG.Solid) (step : Q) :
  nonEmpty (gridBounds csg_solid) ->
  (step <= 0 -> forall fuel, csgToCubes fuel csg_solid step = OutOfFuel)
  /\ (0 < step -> exists fuel cubes, csgToCubes fuel csg_solid step = Returned cubes)
  /\ (step <= 0 -> forall fuel, Draft.csgToCubes true fuel csg_solid step = OutOfFuel)
  /\ (0 < step -> exists fuel cubes,
                    Draft.csgToCubes true fuel csg_solid step = Returned cubes).
Proof.
  intros [Hx _].
  split; [intros Hs fuel; now apply csgToCubes_diverges|].
  split; [intro Hs; eexists; eexists; now apply csgToCubes_grid|].
  split.
  - intros Hs fuel. unfold Draft.csgToCubes. simpl negb. cbv iota.
    apply loop_x_diverges; [exact Hs|]. vm_compute. reflexivity.
  - intro Hs. exists (gridFuel defaultBounds step). eexists.
    unfold Draft.csgToCubes. simpl negb. cbv iota. now apply loop_x_grid.
Qed.

(** C10 on A - B: no return at the steps 0 and -1, a return at the step 1. *)
Lemma C10_termination_witness :
  (forall fuel, csgToCubes fuel solidAminusB 0 = OutOfFuel)
  /\ (forall fuel, csgToCubes fuel solidAminusB (-1) = OutOfFuel)
  /\ (exists fuel cubes, csgToCubes fuel solidAminusB 1 = Returned cubes).
Proof.
  assert (Hne : nonEmpty (gridBounds solidAminusB)).
  { vm_compute. repeat split; reflexivity. }
  split; [|split].
  - apply (proj1 (C10_terminates_only_for_positive_step solidAminusB 0 Hne)).
    vm_compute. discriminate.
  - apply (proj1 (C10_terminates_only_for_positive_step solidAminusB (-1) Hne)).
    vm_compute. discriminate.
  - apply (proj1 (proj2 (C10_terminates_only_for_positive_step solidAminusB 1 Hne))).
    vm_compute. reflexivity.
Defined.

(** * Further properties of the code *)

(** ** The transformation matrix *)


(** X2.  The array returned has 16 entries, and its bottom row (the
    entries 3, 7, 11 and 15 of the column-major array) is 0 0 0 1: the
    matrix is affine. *)
Theorem X2_matrix_is_affine {math : HostMath} (cube : Cube) :
  List.length (getTransformationMatrix cube) = 16%nat
  /\ nth 3 (getTransformationMatrix cube) 0 == 0
  /\ nth 7 (getTransformationMatrix cube) 0 == 0
  /\ nth 11 (getTransformationMatrix cube) 0 == 0
  /\ nth 15 (getTransformationMatrix cube) 0 == 1.
Proof.
  split; [reflexivity|].
  destruct cube as [nm fr t0 [px py pz] [rx ry rz]].
  matrix_unfold. trig_atoms rx ry rz. repeat split; ring.
Qed.

(** ** The voxeliser *)

(** A run that returns, returns the voxels of the grid. *)
Lemma csgToCubes_returns_grid (csg_solid : CSG.Solid) (step : Q) (fuel : nat)
      (out : list Cube) :
  0 < step -> csgToCubes fuel csg_solid step = Returned out ->
  out = voxelGrid (CSG.toPolygons csg_solid) (gridBounds csg_solid) step.
Proof.
  intros Hs H.
  exact (csgToCubes_deterministic _ _ _ _ _ _ H
           (csgToCubes_grid csg_solid step _ Hs (Nat.le_refl _))).
Qed.

(** The count is the number of polygons that the callback counts. *)
Lemma intersections_filter (csg_polygons : list CSG.Polygon) (c : CSG.Vector) :
  intersections csg_polygons c
  = List.length (filter (countsIntersection c) csg_polygons).
Proof.
  unfold intersections.
  assert (H : forall n,
             fold_left (fun n polygon => if countsIntersection c polygon then S n else n)
                       csg_polygons n
             = (n + List.length (filter (countsIntersection c) csg_polygons))%nat).
  { induction csg_polygons as [|p ps IH]; intro n; simpl; [lia|].
    rewrite IH. destruct (countsIntersection c p); simpl; lia. }
  now rewrite H.
Qed.

(** X5.  A solid none of whose polygons faces along the ray (|normal.x|
    below the tolerance for each of them; in particular a solid with no
    polygon at all) gives no voxel: with a positive step the voxeliser
    scans the whole grid and returns the empty list. *)
Theorem X5_no_facing_polygon_no_voxel (csg_solid : CSG.Solid) (step : Q) (fuel : nat) :
  0 < step ->
  Forall (fun p => Qabs (CSG.dot (CSG.normal (CSG.plane p)) ray_direction) < EPSILON)
         (CSG.toPolygons csg_solid) ->
  (gridFuel (gridBounds csg_solid) step <= fuel)%nat ->
  csgToCubes fuel csg_solid step = Returned [].
Proof.
  intros Hs Hall Hf. rewrite csgToCubes_grid by assumption. f_equal.
  unfold voxelGrid.
  rewrite (filter_constant _ false); [reflexivity|].
  intros c _. unfold insideCell. rewrite intersections_filter.
  rewrite (filter_constant _ false); [reflexivity|].
  intros p Hp. rewrite Forall_forall in Hall. specialize (Hall p Hp).
  unfold countsIntersection. apply Qltb_lt in Hall. now rewrite Hall.
Qed.

(** X5 on the tube of the faces of A - B that do not face along x. *)
Lemma X5_no_facing_polygon_witness :
  csgToCubes 9 tubeSolid 1 = Returned [].
Proof.
  apply (X5_no_facing_polygon_no_voxel tubeSolid 1 9).
  - vm_compute. reflexivity.
  - apply Forall_forall. intros p Hp. apply Qltb_lt.
    assert (H : forallb (fun p => Qltb (Qabs (CSG.dot (CSG.normal (CSG.plane p))
                                                     ray_direction)) EPSILON)
                        (CSG.toPolygons tubeSolid) = true)
      by (vm_compute; reflexivity).
    rewrite forallb_forall in H. exact (H p Hp).
  - vm_compute. lia.
Defined.

(** Fuel decides nothing but whether a loop has finished: loops over two
    lists of polygons that classify every cell alike run alike. *)
Section LoopExt.

Variables ps ps' : list CSG.Polygon.
Variable step : Q.
Variable bounds : CSG.Bounds.
Hypothesis same : forall x y z, insideCell ps step x y z = insideCell ps' step x y z.

Lemma loop_z_ext fuel : forall x y z cubes,
  loop_z ps step bounds fuel x y z cubes = loop_z ps' step bounds fuel x y z cubes.
Proof.
  induction fuel as [|fuel IH]; intros x y z cubes; simpl; [reflexivity|].
  destruct (Qltb z _); [|reflexivity].
  unfold visitCell. rewrite same. apply IH.
Qed.

Lemma loop_y_ext fuel : forall x y cubes,
  loop_y ps step bounds fuel x y cubes = loop_y ps' step bounds fuel x y cubes.
Proof.
  induction fuel as [|fuel IH]; intros x y cubes; simpl; [reflexivity|].
  destruct (Qltb y _); [|reflexivity].
  rewrite loop_z_ext. destruct (loop_z ps' step bounds fuel x y _ cubes); auto.
Qed.

Lemma loop_x_ext fuel : forall x cubes,
  loop_x ps step bounds fuel x cubes = loop_x ps' step bounds fuel x cubes.
Proof.
  induction fuel as [|fuel IH]; intros x cubes; simpl; [reflexivity|].
  destruct (Qltb x _); [|reflexivity].
  rewrite loop_y_ext. destruct (loop_y ps' step bounds fuel x _ cubes); auto.
Qed.

End LoopExt.

Lemma filter_length_Permutation {A : Type} (f : A -> bool) (l l' : list A) :
  Permutation l l' -> List.length (filter f l) = List.length (filter f l').
Proof.
  intro H. induction H as [|a l l' H IH|a b l|l l' l'' H1 IH1 H2 IH2]; simpl.
  - reflexivity.
  - destruct (f a); simpl; now rewrite IH.
  - destruct (f a), (f b); reflexivity.
  - now rewrite IH1.
Qed.

(** X6.  The order of the polygons of a solid does not matter: two solids
    with the same polygons in any order, and the same bounds, are
    voxelised alike, for every resolution and at every stage of the run. *)
Theorem X6_polygon_order_is_irrelevant (s s' : CSG.Solid) (resolution : Q) (fuel : nat) :
  Permutation (CSG.toPolygons s) (CSG.toPolygons s') ->
  CSG.getBounds s = CSG.getBounds s' ->
  csgToCubes fuel s resolution = csgToCubes fuel s' resolution.
Proof.
  intros Hp Hb. unfold csgToCubes, gridBounds. rewrite Hb.
  apply loop_x_ext. intros x y z. unfold insideCell.
  rewrite !intersections_filter.
  now rewrite (filter_length_Permutation _ _ _ Hp).
Qed.

(** X6 on A - B and the same polygons in reverse order. *)
Lemma X6_polygon_order_witness :
  csgToCubes 9 solidAminusB 1
  = csgToCubes 9 (CSG.mkSolid (rev (CSG.toPolygons solidAminusB)) (Some boundsOfA)) 1.
Proof.
  apply (X6_polygon_order_is_irrelevant solidAminusB
           (CSG.mkSolid (rev (CSG.toPolygons solidAminusB)) (Some boundsOfA)) 1 9).
  - apply Permutation_rev.
  - vm_compute. reflexivity.
Defined.

(** ** Concatenation *)

Lemma newVoxel_inj (x y z x' y' z' step : Q) :
  newVoxel x y z step = newVoxel x' y' z' step -> x = x' /\ y = y' /\ z = z'.
Proof.
  unfold newVoxel. intro H. injection H as Hx Hy Hz _ _ _. auto.
Qed.

(** A voxel is in the output exactly when its cell is on the grid and
    classified inside. *)
Lemma voxelGrid_In_cell (ps : list CSG.Polygon) (b : CSG.Bounds) (step : Q) (c : CSG.Vector) :
  In (newVoxel (CSG.x c) (CSG.y c) (CSG.z c) step) (voxelGrid ps b step) <->
  In c (gridCells b step) /\ insideCell ps step (CSG.x c) (CSG.y c) (CSG.z c) = true.
Proof.
  rewrite voxelGrid_In. split.
  - intros [c' [Hin [Hi Heq]]]. apply newVoxel_inj in Heq.
    destruct Heq as [Hx [Hy Hz]]. destruct c as [cx cy cz], c' as [cx' cy' cz'].
    simpl in *. subst. auto.
  - intros [Hin Hi]. exists c. auto.
Qed.

Lemma insideCell_app (ps qs : list CSG.Polygon) (step x y z : Q) :
  insideCell (ps ++ qs) step x y z
  = xorb (insideCell ps step x y z) (insideCell qs step x y z).
Proof.
  rewrite !insideCell_odd, !intersections_filter, filter_app, length_app.
  apply Nat.odd_add.
Qed.

(** X7.  Parity adds up: voxelising the polygons of two solids together,
    over one and the same grid, returns exactly the voxels that one of
    the two solids gives and the other does not. *)
Theorem X7_concatenation_is_symmetric_difference
        (s1 s2 s12 : CSG.Solid) (step : Q) (fuel : nat) :
  0 < step ->
  CSG.toPolygons s12 = CSG.toPolygons s1 ++ CSG.toPolygons s2 ->
  gridBounds s1 = gridBounds s12 ->
  gridBounds s2 = gridBounds s12 ->
  (gridFuel (gridBounds s12) step <= fuel)%nat ->
  exists out1 out2 out12 : list Cube,
    csgToCubes fuel s1 step = Returned out1
    /\ csgToCubes fuel s2 step = Returned out2
    /\ csgToCubes fuel s12 step = Returned out12
    /\ forall cube,
         In cube out12 <->
         (In cube out1 /\ ~ In cube out2) \/ (~ In cube out1 /\ In cube out2).
Proof.
  intros Hs Hp H1 H2 Hf.
  exists (voxelGrid (CSG.toPolygons s1) (gridBounds s1) step).
  exists (voxelGrid (CSG.toPolygons s2) (gridBounds s2) step).
  exists (voxelGrid (CSG.toPolygons s12) (gridBounds s12) step).
  split; [apply csgToCubes_grid; [exact Hs|now rewrite H1]|].
  split; [apply csgToCubes_grid; [exact Hs|now rewrite H2]|].
  split; [now apply csgToCubes_grid|].
  rewrite H1, H2, Hp. set (b := gridBounds s12).
  intro cube. split.
  - intro H. apply voxelGrid_In in H. destruct H as [c [Hin [Hi ->]]].
    rewrite !voxelGrid_In_cell. rewrite insideCell_app in Hi.
    destruct (insideCell (CSG.toPolygons s1) step _ _ _),
             (insideCell (CSG.toPolygons s2) step _ _ _); simpl in Hi; try discriminate.
    + left. split; [auto|]. intros [_ H]. discriminate.
    + right. split; [|auto]. intros [_ H]. discriminate.
  - intros [[Ha Hb]|[Ha Hb]].
    + apply voxelGrid_In in Ha. destruct Ha as [c [Hin [Hi ->]]].
      rewrite voxelGrid_In_cell in *. split; [exact Hin|].
      rewrite insideCell_app, Hi.
      destruct (insideCell (CSG.toPolygons s2) step _ _ _); [|reflexivity].
      exfalso. apply Hb. auto.
    + apply voxelGrid_In in Hb. destruct Hb as [c [Hin [Hi ->]]].
      rewrite voxelGrid_In_cell in *. split; [exact Hin|].
      rewrite insideCell_app, Hi.
      destruct (insideCell (CSG.toPolygons s1) step _ _ _); [|reflexivity].
      exfalso. apply Ha. auto.
Qed.

(** X7 on the polygons of the boxes A and B, over the bounds of A. *)
Lemma X7_concatenation_witness :
  exists out1 out2 out12 : list Cube,
    csgToCubes 9 solidA 1 = Returned out1
    /\ csgToCubes 9 solidB_overA 1 = Returned out2
    /\ csgToCubes 9 solidAB_together 1 = Returned out12
    /\ forall cube,
         In cube out12 <->
         (In cube out1 /\ ~ In cube out2) \/ (~ In cube out1 /\ In cube out2).
Proof.
  apply (X7_concatenation_is_symmetric_difference solidA solidB_overA solidAB_together 1 9).
  - vm_compute. reflexivity.
  - reflexivity.
  - vm_compute. reflexivity.
  - vm_compute. reflexivity.
  - vm_compute. lia.
Defined.

(** ** Where the voxels lie *)

Lemma StronglySorted_with {A : Type} (R : A -> A -> Prop) (P : A -> Prop) (l : list A) :
  StronglySorted R l -> Forall P l ->
  StronglySorted (fun a b => R a b /\ P a /\ P b) l.
Proof.
  intros Hs Hp. induction Hs as [|a l Hs IH Hall]; constructor.
  - apply IH. now inversion Hp.
  - inversion Hp as [|? ? Pa Pl]; subst.
    rewrite Forall_forall in *. intros b Hb. auto.
Qed.

(** Two grid positions along one axis, the first below the second, are
    at least one step apart. *)
Lemma grid_gap (lo step u v : Q) (i j : nat) :
  0 < step ->
  u == lo + inject_Z (Z.of_nat i) * step ->
  v == lo + inject_Z (Z.of_nat j) * step ->
  u < v -> u + step <= v.
Proof.
  intros Hs Hu Hv Hlt.
  assert (Hij : (i < j)%nat).
  { apply Nat.nle_gt. intro Hle. apply inj_le in Hle. rewrite Zle_Qle in Hle.
    apply Qmult_le_r with (z := step) in Hle; [|exact Hs]. lra. }
  assert (H : inject_Z (Z.of_nat i) + 1 <= inject_Z (Z.of_nat j)).
  { change 1 with (inject_Z 1). rewrite <- inject_Z_plus, <- Zle_Qle. lia. }
  apply Qmult_le_r with (z := step) in H; [|exact Hs]. lra.
Qed.

Lemma lexLt_endsBefore (b : CSG.Bounds) (step : Q) (c c' : CSG.Vector) :
  0 < step -> onGrid b step c -> onGrid b step c' -> lexLt c c' ->
  endsBefore (newVoxel (CSG.x c) (CSG.y c) (CSG.z c) step)
             (newVoxel (CSG.x c') (CSG.y c') (CSG.z c') step).
Proof.
  intros Hs [i [j [k [Hi [Hj [Hk _]]]]]] [i' [j' [k' [Hi' [Hj' [Hk' _]]]]]] Hlt.
  unfold endsBefore. simpl.
  destruct Hlt as [Hx|[[_ Hy]|[_ [_ Hz]]]].
  - left. exact (grid_gap _ _ _ _ _ _ Hs Hi Hi' Hx).
  - right. left. exact (grid_gap _ _ _ _ _ _ Hs Hj Hj' Hy).
  - right. right. exact (grid_gap _ _ _ _ _ _ Hs Hk Hk' Hz).
Qed.

(** X8.  With a positive step the voxels returned do not overlap: each
    voxel ends, on some axis, where or before every later voxel of the
    list begins. *)
Theorem X8_voxels_do_not_overlap (csg_solid : CSG.Solid) (step : Q) (fuel : nat) :
  0 < step ->
  (gridFuel (gridBounds csg_solid) step <= fuel)%nat ->
  exists out : list Cube,
    csgToCubes fuel csg_solid step = Returned out
    /\ StronglySorted endsBefore out.
Proof.
  intros Hs Hf. eexists. split; [now apply csgToCubes_grid|].
  unfold voxelGrid. apply StronglySorted_map. apply StronglySorted_filter.
  set (b := gridBounds csg_solid).
  eapply StronglySorted_weaken;
    [|apply (StronglySorted_with lexLt (onGrid b step));
      [now apply gridCells_sorted
      |apply Forall_forall; intros c Hc; now apply gridCells_onGrid]].
  intros c c' [Hlt [Hc Hc']]. now apply (lexLt_endsBefore b).
Qed.

(** X8 on A - B with the step 1. *)
Lemma X8_voxels_do_not_overlap_witness :
  exists out : list Cube,
    csgToCubes 9 solidAminusB 1 = Returned out /\ StronglySorted endsBefore out.
Proof.
  apply (X8_voxels_do_not_overlap solidAminusB 1 9).
  - vm_compute. reflexivity.
  - vm_compute. lia.
Defined.

(** X9.  With a positive step every voxel returned starts inside the
    bounds, min <= from < max on each axis, and has sides of length
    step. *)
Theorem X9_voxels_within_bounds (csg_solid : CSG.Solid) (step : Q) (fuel : nat) :
  0 < step ->
  (gridFuel (gridBounds csg_solid) step <= fuel)%nat ->
  exists out : list Cube,
    csgToCubes fuel csg_solid step = Returned out
    /\ forall cube, In cube out ->
         let b := gridBounds csg_solid in
         (CSG.x (CSG.min b) <= CSG.x (from cube) < CSG.x (CSG.max b)
          /\ CSG.y (CSG.min b) <= CSG.y (from cube) < CSG.y (CSG.max b)
          /\ CSG.z (CSG.min b) <= CSG.z (from cube) < CSG.z (CSG.max b))
         /\ (CSG.x (to cube) == CSG.x (from cube) + step
             /\ CSG.y (to cube) == CSG.y (from cube) + step
             /\ CSG.z (to cube) == CSG.z (from cube) + step).
Proof.
  intros Hs Hf. eexists. split; [now apply csgToCubes_grid|].
  intros cube Hin b. apply voxelGrid_In in Hin. destruct Hin as [c [Hc [_ ->]]].
  apply (gridCells_onGrid _ _ _ Hs) in Hc. fold b in Hc.
  destruct Hc as [i [j [k [Hi [Hj [Hk [Hx [Hy Hz]]]]]]]]. simpl.
  assert (Hnn : forall m : nat, 0 <= inject_Z (Z.of_nat m) * step).
  { intro m. apply Qmult_le_0_compat; [|lra].
    change 0 with (inject_Z 0). rewrite <- Zle_Qle. lia. }
  pose proof (Hnn i). pose proof (Hnn j). pose proof (Hnn k).
  split; [repeat split; lra|]. repeat split; reflexivity.
Qed.

(** X9 on A - B with the step 1. *)
Lemma X9_voxels_within_bounds_witness :
  exists out : list Cube,
    csgToCubes 9 solidAminusB 1 = Returned out
    /\ forall cube, In cube out -> 0 <= CSG.x (from cube) < 2.
Proof.
  destruct (X9_voxels_within_bounds solidAminusB 1 9
              ltac:(vm_compute; reflexivity) ltac:(vm_compute; lia)) as [out [Hrun H]].
  exists out. split; [exact Hrun|].
  intros cube Hin. destruct (H cube Hin) as [[Hx _] _]. exact Hx.
Defined.

(** X10.  On a solid bounded by axis-parallel planes the cells of one
    slab of constant x are kept or dropped together: if the voxel of one
    cell is returned, so is the voxel of every cell of the grid with the
    same x. *)
Theorem X10_slabs_are_kept_together (csg_solid : CSG.Solid) (step : Q) (fuel : nat) :
  0 < step ->
  Forall axisParallel (CSG.toPolygons csg_solid) ->
  (gridFuel (gridBounds csg_solid) step <= fuel)%nat ->
  exists out : list Cube,
    csgToCubes fuel csg_solid step = Returned out
    /\ forall c c' : CSG.Vector,
         In c (gridCells (gridBounds csg_solid) step) ->
         In c' (gridCells (gridBounds csg_solid) step) ->
         CSG.x c = CSG.x c' ->
         In (newVoxel (CSG.x c) (CSG.y c) (CSG.z c) step) out ->
         In (newVoxel (CSG.x c') (CSG.y c') (CSG.z c') step) out.
Proof.
  intros Hs Hall Hf. eexists. split; [now apply csgToCubes_grid|].
  intros c c' Hc Hc' Hx. rewrite !voxelGrid_In_cell. intros [_ Hi].
  split; [exact Hc'|]. rewrite <- Hx.
  now rewrite (insideCell_axisParallel _ step (CSG.x c) (CSG.y c') (CSG.z c')
                 (CSG.y c) (CSG.z c) Hall).
Qed.

(** X10 on A - B with the step 1. *)
Lemma X10_slabs_witness :
  exists out : list Cube,
    csgToCubes 9 solidAminusB 1 = Returned out
    /\ forall c c' : CSG.Vector,
         In c (gridCells (gridBounds solidAminusB) 1) ->
         In c' (gridCells (gridBounds solidAminusB) 1) ->
         CSG.x c = CSG.x c' ->
         In (newVoxel (CSG.x c) (CSG.y c) (CSG.z c) 1) out ->
         In (newVoxel (CSG.x c') (CSG.y c') (CSG.z c') 1) out.
Proof.
  apply (X10_slabs_are_kept_together solidAminusB 1 9).
  - vm_compute. reflexivity.
  - apply forallb_axisParallel. vm_compute. reflexivity.
  - vm_compute. lia.
Defined.

(** ** An axis-aligned box *)

Lemma boxFaceb_sound (lo hi : Q) (ps : list CSG.Polygon) :
  forallb (boxFaceb lo hi) ps = true -> Forall (boxFace lo hi) ps.
Proof.
  intro H. apply Forall_forall. intros p Hp.
  rewrite forallb_forall in H. specialize (H p Hp).
  unfold boxFaceb in H. unfold boxFace.
  repeat (apply orb_true_iff in H; destruct H as [H|H]).
  - left. now apply Qeq_bool_iff.
  - right. left. repeat (apply andb_true_iff in H; destruct H as [H ?]).
    repeat split; now apply Qeq_bool_iff.
  - right. right. repeat (apply andb_true_iff in H; destruct H as [H ?]).
    repeat split; now apply Qeq_bool_iff.
Qed.

(** From a sample to the right of the near face and more than the
    tolerance to the left of the far face, the callback counts exactly
    the polygons of the far face. *)
Lemma countsIntersection_boxFace (lo hi : Q) (c : CSG.Vector) (p : CSG.Polygon) :
  boxFace lo hi p -> lo <= CSG.x c -> EPSILON < hi - CSG.x c ->
  countsIntersection c p = Qltb 0 (CSG.x (CSG.normal (CSG.plane p))).
Proof.
  intros Hp Hlo Hhi. unfold countsIntersection.
  set (n := CSG.normal (CSG.plane p)) in *.
  assert (Hd : CSG.dot n ray_direction == CSG.x n) by (unfold CSG.dot; simpl; ring).
  assert (Heps : 0 < EPSILON) by reflexivity.
  destruct Hp as [H0|[[H1 [Hy [Hz Hw]]]|[H1 [Hy [Hz Hw]]]]]; fold n in H0 || fold n in H1, Hy, Hz.
  - assert (Ha : Qltb (Qabs (CSG.dot n ray_direction)) EPSILON = true).
    { apply Qltb_lt. rewrite Hd, H0. exact Heps. }
    rewrite Ha. symmetry. apply Qltb_ge. rewrite H0. lra.
  - assert (Ha : Qltb (Qabs (CSG.dot n ray_direction)) EPSILON = false).
    { apply Qltb_ge. rewrite Hd, H1. unfold EPSILON. discriminate. }
    rewrite Ha.
    assert (Ht : (CSG.w (CSG.plane p) - CSG.dot n c) / CSG.dot n ray_direction
                 == hi - CSG.x c).
    { rewrite Hd, Hw. unfold CSG.dot. rewrite H1, Hy, Hz. field. }
    assert (Hb : Qltb EPSILON ((CSG.w (CSG.plane p) - CSG.dot n c)
                               / CSG.dot n ray_direction) = true).
    { apply Qltb_lt. now rewrite Ht. }
    rewrite Hb. symmetry. apply Qltb_lt. rewrite H1. reflexivity.
  - assert (Ha : Qltb (Qabs (CSG.dot n ray_direction)) EPSILON = false).
    { apply Qltb_ge. rewrite Hd, H1. unfold EPSILON. discriminate. }
    rewrite Ha.
    assert (Ht : (CSG.w (CSG.plane p) - CSG.dot n c) / CSG.dot n ray_direction
                 == lo - CSG.x c).
    { rewrite Hd, Hw. unfold CSG.dot. rewrite H1, Hy, Hz. field. }
    assert (Hb : Qltb EPSILON ((CSG.w (CSG.plane p) - CSG.dot n c)
                               / CSG.dot n ray_direction) = false).
    { apply Qltb_ge. rewrite Ht. lra. }
    rewrite Hb. symmetry. apply Qltb_ge. rewrite H1. discriminate.
Qed.

Lemma filter_ext_in_list {A : Type} (f g : A -> bool) (l : list A) :
  (forall a, In a l -> f a = g a) -> filter f l = filter g l.
Proof.
  intro H. induction l as [|a l IH]; simpl; [reflexivity|].
  rewrite (H a (or_introl eq_refl)), IH by (intros u Hu; apply H; now right).
  reflexivity.
Qed.

(** At or beyond the tolerance before the far face, and to the right of
    the near face, the callback counts no face of the box. *)
Lemma countsIntersection_boxFace_beyond (lo hi : Q) (c : CSG.Vector) (p : CSG.Polygon) :
  boxFace lo hi p -> lo <= CSG.x c -> hi - CSG.x c <= EPSILON ->
  countsIntersection c p = false.
Proof.
  intros Hp Hlo Hhi. unfold countsIntersection.
  set (n := CSG.normal (CSG.plane p)) in *.
  assert (Hd : CSG.dot n ray_direction == CSG.x n) by (unfold CSG.dot; simpl; ring).
  assert (Heps : 0 < EPSILON) by reflexivity.
  destruct (Qltb (Qabs (CSG.dot n ray_direction)) EPSILON) eqn:Ea; [reflexivity|].
  apply Qltb_ge in Ea.
  destruct Hp as [H0|[[H1 [Hy [Hz Hw]]]|[H1 [Hy [Hz Hw]]]]];
    fold n in H0 || fold n in H1, Hy, Hz.
  - exfalso. rewrite Hd, H0 in Ea. change (Qabs 0) with 0 in Ea. lra.
  - assert (Ht : (CSG.w (CSG.plane p) - CSG.dot n c) / CSG.dot n ray_direction
                 == hi - CSG.x c).
    { rewrite Hd, Hw. unfold CSG.dot. rewrite H1, Hy, Hz. field. }
    assert (Hb : Qltb EPSILON ((CSG.w (CSG.plane p) - CSG.dot n c)
                               / CSG.dot n ray_direction) = false).
    { apply Qltb_ge. now rewrite Ht. }
    now rewrite Hb.
  - assert (Ht : (CSG.w (CSG.plane p) - CSG.dot n c) / CSG.dot n ray_direction
                 == lo - CSG.x c).
    { rewrite Hd, Hw. unfold CSG.dot. rewrite H1, Hy, Hz. field. }
    assert (Hb : Qltb EPSILON ((CSG.w (CSG.plane p) - CSG.dot n c)
                               / CSG.dot n ray_direction) = false).
    { apply Qltb_ge. rewrite Ht. lra. }
    now rewrite Hb.
Qed.

(** X12.  On an axis-aligned box the verdict on a cell is the right one
    along x.  Let the polygons of a solid be faces of the box that spans
    [lo, hi] along x, an odd number of them facing +x, and let its bounds
    begin at or after lo.  Then, of the cells that the loops visit, the
    voxeliser returns exactly those whose centre lies more than the
    tolerance before the far face x = hi. *)
Theorem X12_box_cells_kept_before_far_face (csg_solid : CSG.Solid) (step lo hi : Q)
        (fuel : nat) :
  0 < step ->
  Forall (boxFace lo hi) (CSG.toPolygons csg_solid) ->
  Nat.odd (List.length (facing (CSG.toPolygons csg_solid))) = true ->
  lo <= CSG.x (CSG.min (gridBounds csg_solid)) ->
  (gridFuel (gridBounds csg_solid) step <= fuel)%nat ->
  exists out : list Cube,
    csgToCubes fuel csg_solid step = Returned out
    /\ forall c : CSG.Vector,
         In c (gridCells (gridBounds csg_solid) step) ->
         (In (newVoxel (CSG.x c) (CSG.y c) (CSG.z c) step) out
          <-> EPSILON < hi - (CSG.x c + step / 2)).
Proof.
  intros Hs Hall Hodd Hlo Hf.
  eexists. split; [now apply csgToCubes_grid|].
  intros c Hc. rewrite voxelGrid_In_cell.
  pose proof (gridCells_onGrid _ _ _ Hs Hc) as [i [_ [_ [Hi _]]]].
  assert (Hge : lo <= CSG.x c + step / 2).
  { change (step / 2) with (step * (1 # 2)). rewrite Hi.
    assert (0 <= inject_Z (Z.of_nat i) * step); [|lra].
    apply Qmult_le_0_compat; [|lra].
    change 0 with (inject_Z 0). rewrite <- Zle_Qle. lia. }
  rewrite Forall_forall in Hall.
  rewrite insideCell_odd, intersections_filter.
  destruct (Qlt_le_dec EPSILON (hi - (CSG.x c + step / 2))) as [Hin|Hout].
  - rewrite (filter_ext_in_list _ (fun p => Qltb 0 (CSG.x (CSG.normal (CSG.plane p))))).
    + split; [intros _; exact Hin|intros _; split; [exact Hc|exact Hodd]].
    + intros p Hp. apply (countsIntersection_boxFace lo hi); [now apply Hall| |];
        simpl; assumption.
  - rewrite (filter_constant _ false).
    + simpl. split; [intros [_ H]; discriminate|intro H; lra].
    + intros p Hp. apply (countsIntersection_boxFace_beyond lo hi); [now apply Hall| |];
        simpl; assumption.
Qed.

(** X12 on the solid of the box A with the step 1. *)
Lemma X12_box_cells_witness :
  exists out : list Cube,
    csgToCubes 9 solidA 1 = Returned out
    /\ forall c : CSG.Vector,
         In c (gridCells (gridBounds solidA) 1) ->
         (In (newVoxel (CSG.x c) (CSG.y c) (CSG.z c) 1) out
          <-> EPSILON < 2 - (CSG.x c + 1 / 2)).
Proof.
  apply (X12_box_cells_kept_before_far_face solidA 1 0 2 9).
  - vm_compute. reflexivity.
  - apply boxFaceb_sound. vm_compute. reflexivity.
  - vm_compute. reflexivity.
  - vm_compute. discriminate.
  - vm_compute. lia.
Defined.

(** ** The pipeline *)

Section PipelineFacts.

Context {math : HostMath} {lib : CSGLibrary}.

(** X13.  In this draft the [switch] has a case for 'subtract' only: for
    every other mode ('union' and 'intersect', which the dialog offers,
    included) the pipeline converts the two selected boxes and returns
    through [default: return], without voxelising and without touching
    the scene. *)
Theorem X13_other_modes_do_nothing (fuel : nat) (host : Host) (mode : string)
        (resolution : Q) (target modifier : Cube) :
  deref host 0 = Some target ->
  deref host 1 = Some modifier ->
  mode <> "subtract"%string ->
  executeCSGOperation true fuel host mode resolution = (Returned None, host).
Proof.
  intros H0 H1 Hm. unfold executeCSGOperation. rewrite H0, H1.
  apply String.eqb_neq in Hm. simpl. now rewrite Hm.
Qed.

(** X14.  With fewer than two elements selected (and three.js there) the
    pipeline fails with a type error, on the conversion of the missing
    element, and leaves the scene as it was; this whatever the mode and
    the resolution, and before any voxel work. *)
Theorem X14_short_selection_is_a_type_error (fuel : nat) (host : Host) (mode : string)
        (resolution : Q) :
  (List.length (selected host) < 2)%nat ->
  executeCSGOperation true fuel host mode resolution = (Thrown TypeError, host).
Proof.
  intros Hlen. unfold executeCSGOperation, deref.
  destruct (selected host) as [|r0 [|r1 rest]] eqn:E; simpl in Hlen; try lia; simpl.
  - reflexivity.
  - destruct (nth_error (heap host) r0) as [cube|] eqn:E0; simpl; [reflexivity|].
    reflexivity.
Qed.

End PipelineFacts.

(** X13 on the scene of A and B with the mode 'union'. *)
Lemma X13_other_modes_witness :
  executeCSGOperation (math := seriesMath) (lib := SpecCSG.library)
                      true 0 sceneAB "union" 1
  = (Returned None, sceneAB).
Proof.
  apply (X13_other_modes_do_nothing (math := seriesMath) (lib := SpecCSG.library)
           0 sceneAB "union" 1 boxA boxB).
  - reflexivity.
  - reflexivity.
  - discriminate.
Defined.

(** X14 on the scene in which only A is selected. *)
Lemma X14_short_selection_witness :
  executeCSGOperation (math := seriesMath) (lib := SpecCSG.library)
                      true 9 sceneOnlyA "subtract" 1
  = (Thrown TypeError, sceneOnlyA).
Proof.
  apply (X14_short_selection_is_a_type_error (math := seriesMath) (lib := SpecCSG.library)
           9 sceneOnlyA "subtract" 1).
  vm_compute. lia.
Defined.

(** ** The workshop of the earlier draft *)

Section WorkshopFacts.

Context {lib : CSGLibrary}.

(** X16.  Loading the selection leaves the workshop with no mesh or with
    exactly two, and with two only when exactly two elements are
    selected; whatever was loaded before is dropped in either case.
    Without a renderer nothing happens. *)
Theorem X16_workshop_holds_none_or_two (host : Host) (old : list Workshop.Mesh) :
  Workshop.loadSelectionIntoWorkshop host None = (Returned tt, None)
  /\ exists meshes,
       snd (Workshop.loadSelectionIntoWorkshop host (Some old)) = Some meshes
       /\ (meshes = [] \/ List.length meshes = 2%nat)
       /\ (List.length meshes = 2%nat -> List.length (selected host) = 2%nat)
       /\ (List.length (selected host) <> 2%nat ->
           Workshop.loadSelectionIntoWorkshop host (Some old) = (Returned tt, Some []))
       /\ Workshop.loadSelectionIntoWorkshop host (Some old)
          = Workshop.loadSelectionIntoWorkshop host (Some []).
Proof.
  split; [reflexivity|]. unfold Workshop.loadSelectionIntoWorkshop.
  destruct (Nat.eqb (List.length (selected host)) 2) eqn:E; simpl.
  - apply Nat.eqb_eq in E.
    destruct (deref host 0) as [a|]; [destruct (deref host 1) as [b|]|]; simpl;
      eexists; (split; [reflexivity|]);
      (split; [auto|]); (split; [intros; exact E|]);
      (split; [intro H; contradiction|reflexivity]).
  - apply Nat.eqb_neq in E. exists []. split; [reflexivity|].
    split; [auto|]. split; [discriminate|]. split; reflexivity.
Qed.

(** X17.  The operands of the draft's pipeline are the boxes that were
    selected when the workshop was loaded, each converted to the cube of
    side 16 at its [from]: for each of the three modes, a positive
    resolution and any non-empty selection at the time of the run, the
    voxels returned are those of the combination of these two solids,
    scanned over the fixed range; what is selected at the time of the run
    has no part in them. *)
Theorem X17_workshop_operands_are_those_loaded
        (loaded now : Host) (old : list Workshop.Mesh) (a b : Cube)
        (mode : string) (result : CSG.Solid) (resolution : Q) (fuel : nat) :
  List.length (selected loaded) = 2%nat ->
  deref loaded 0 = Some a ->
  deref loaded 1 = Some b ->
  Workshop.combine mode (Workshop.cubeToCSG a) (Workshop.cubeToCSG b) = Some result ->
  0 < resolution ->
  selected now <> [] ->
  (gridFuel defaultBounds resolution <= fuel)%nat ->
  fst (Workshop.executeCSGOperation
         true fuel now (snd (Workshop.loadSelectionIntoWorkshop loaded (Some old)))
         mode resolution)
  = Returned (Some (voxelGrid (CSG.toPolygons result) defaultBounds resolution)).
Proof.
  intros Hlen Ha Hb Hc Hr Hsel Hf.
  unfold Workshop.loadSelectionIntoWorkshop. rewrite Hlen, Ha, Hb. simpl.
  rewrite Hc. unfold Draft.csgToCubes. simpl negb. cbv iota.
  rewrite loop_x_grid by assumption.
  destruct (selected now); [contradiction|reflexivity].
Qed.

(** X18.  When the workshop was loaded from a selection that did not have
    exactly two elements, or the mode is none of the three, the draft's
    pipeline returns without doing anything, whatever the scene; and when
    nothing is selected at the time of the run it fails with a type error
    once the voxels are computed, the scene being left as it was. *)
Theorem X18_workshop_pipeline_edges
        (loaded now : Host) (old : list Workshop.Mesh)
        (mode : string) (resolution : Q) (fuel : nat) :
  (List.length (selected loaded) <> 2%nat ->
   Workshop.executeCSGOperation
     true fuel now (snd (Workshop.loadSelectionIntoWorkshop loaded (Some old)))
     mode resolution
   = (Returned None, now))
  /\ (forall meshes,
        mode <> "subtract"%string -> mode <> "union"%string -> mode <> "intersect"%string ->
        Workshop.executeCSGOperation true fuel now (Some meshes) mode resolution
        = (Returned None, now))
  /\ (forall item_A item_B result,
        Workshop.combine mode (Workshop.solid item_A) (Workshop.solid item_B)
        = Some result ->
        0 < resolution ->
        (gridFuel defaultBounds resolution <= fuel)%nat ->
        selected now = [] ->
        Workshop.executeCSGOperation true fuel now (Some [item_A; item_B]) mode resolution
        = (Thrown TypeError, now)).
Proof.
  split; [|split].
  - intro Hlen. unfold Workshop.loadSelectionIntoWorkshop.
    apply Nat.eqb_neq in Hlen. rewrite Hlen. reflexivity.
  - intros meshes H1 H2 H3. unfold Workshop.executeCSGOperation.
    destruct (negb (Nat.eqb (List.length meshes) 2)); [reflexivity|].
    destruct meshes as [|item_A [|item_B rest]]; try reflexivity.
    unfold Workshop.combine.
    apply String.eqb_neq in H1, H2, H3. now rewrite H1, H2, H3.
  - intros item_A item_B result Hc Hr Hf Hsel. unfold Workshop.executeCSGOperation.
    simpl. rewrite Hc. unfold Draft.csgToCubes. simpl negb. cbv iota.
    rewrite loop_x_grid by assumption. now rewrite Hsel.
Qed.

(** X19.  On an unrotated box of side 16 the two converters agree: the
    cube of radius 8 at [from] + 8 of the draft is the cube that the
    full converter asks for. *)
Theorem X19_converters_agree_on_side_16 {math : HostMath} (cube : Cube) :
  someRotation cube = false ->
  CSG.x (to cube) == CSG.x (from cube) + 16 ->
  CSG.y (to cube) == CSG.y (from cube) + 16 ->
  CSG.z (to cube) == CSG.z (from cube) + 16 ->
  exists center radius center' radius' : CSG.Vector,
    cubeToCSG true cube
    = Returned (translate (CSG_cube (CSG.mkVector 0 0 0) radius) center)
    /\ Workshop.cubeToCSG cube
       = translate (CSG_cube (CSG.mkVector 0 0 0) radius') center'
    /\ vec_eq radius radius'
    /\ vec_eq center center'.
Proof.
  intros Hno Hx Hy Hz.
  do 4 eexists. split; [unfold cubeToCSG; rewrite Hno; reflexivity|].
  split; [reflexivity|].
  unfold vec_eq. simpl. rewrite Hx, Hy, Hz. repeat split; field.
Qed.

End WorkshopFacts.

(** X17 with the workshop loaded from the scene in which A and B are
    selected and run, for the union at the step 4, on the scene in which
    only A is selected. *)
Lemma X17_workshop_operands_witness :
  fst (Workshop.executeCSGOperation (lib := SpecCSG.library)
         true 15 sceneOnlyA
         (snd (Workshop.loadSelectionIntoWorkshop (lib := SpecCSG.library) sceneAB (Some [])))
         "union" 4)
  = Returned
      (Some (voxelGrid
               (CSG.toPolygons
                  (SpecCSG.union (Workshop.cubeToCSG (lib := SpecCSG.library) boxA)
                                 (Workshop.cubeToCSG (lib := SpecCSG.library) boxB)))
               defaultBounds 4)).
Proof.
  apply (X17_workshop_operands_are_those_loaded (lib := SpecCSG.library)
           sceneAB sceneOnlyA [] boxA boxB "union").
  - reflexivity.
  - reflexivity.
  - reflexivity.
  - reflexivity.
  - vm_compute. reflexivity.
  - discriminate.
  - vm_compute. lia.
Defined.

(** X19 on a box of side 16. *)
Lemma X19_converters_agree_witness :
  exists center radius center' radius' : CSG.Vector,
    cubeToCSG (math := seriesMath) (lib := SpecCSG.library) true box16
    = Returned (SpecCSG.translate (SpecCSG.cube (CSG.mkVector 0 0 0) radius) center)
    /\ Workshop.cubeToCSG (lib := SpecCSG.library) box16
       = SpecCSG.translate (SpecCSG.cube (CSG.mkVector 0 0 0) radius') center'
    /\ vec_eq radius radius'
    /\ vec_eq center center'.
Proof.
  apply (X19_converters_agree_on_side_16 (lib := SpecCSG.library) (math := seriesMath) box16).
  - reflexivity.
  - vm_compute. reflexivity.
  - vm_compute. reflexivity.
  - vm_compute. reflexivity.
Defined.
